(** * Cart consistency and pricing aggregation of the storefront

    A shallow embedding of the cart logic of
    [src/context/CartContext.tsx] and [src/components/Cart.tsx] and of
    the discount helper [calculateDiscount] of
    [src/components/Products.tsx] (and its copies).

    JavaScript numbers are IEEE 754 binary64 values; prices are carried
    as Rocq's primitive floats, which are the same binary64 values with
    the same round-to-nearest-even arithmetic.  The [quantity] of a cart
    line is the [INTEGER NOT NULL] column of table [cart_items]
    ([supabase-setup.sql]); it is carried as [Z] and injected into
    binary64 where the source multiplies it with a price. *)

From Stdlib Require Import ZArith List Bool String Lia.
From Stdlib Require Import Floats.PrimFloat Floats.SpecFloat Floats.FloatOps.
From Stdlib Require Import Numbers.Cyclic.Int63.Uint63.
Import ListNotations.

Local Open Scope string_scope.
Local Open Scope list_scope.
Local Open Scope Z_scope.
Set Warnings "-inexact-float".

(** ** JavaScript numbers *)

Module JsNumber.

Definition number := float.

(** [ToBoolean] on a number: [+0], [-0] and [NaN] are falsy. *)
Definition truthy (x : number) : bool :=
  negb (PrimFloat.eqb x 0%float || PrimFloat.is_nan x).

(** The number value of a mathematical integer (round to nearest,
    ties to even; exact below 2^53). *)
Definition of_Z (z : Z) : number :=
  SF2Prim (binary_normalize prec emax z 0 false).

(** [Math.round]: the integer closest to [x], ties towards +Infinity;
    [NaN], the infinities and integral values are returned as they are,
    and a negative argument that rounds to zero gives [-0]. *)
Definition Math_round (x : number) : number :=
  match Prim2SF x with
  | S754_finite s m e =>
      if 0 <=? e then x
      else
        let n := if s then Z.neg m else Z.pos m in
        let r := Z.shiftr (2 * n + Z.shiftl 1 (- e)) (1 - e) in
        if s then PrimFloat.opp (PrimFloat.of_uint63 (Uint63.of_Z (- r)))
        else PrimFloat.of_uint63 (Uint63.of_Z r)
  | _ => x
  end.

Arguments truthy x%_float.
Arguments Math_round x%_float.

End JsNumber.
Import JsNumber.

(** A property that may be [undefined], [null] or a number
    ([discount_price?: number], [discount_price: number | null]). *)
Inductive optnum : Type :=
| Undefined
| Null
| Num (x : number).
Arguments Num x%_float.

(** [!v] on such a value. *)
Definition falsy (v : optnum) : bool :=
  match v with
  | Undefined | Null => true
  | Num x => negb (truthy x)
  end.

(** ** [calculateDiscount] (Products.tsx, Dashboard.tsx and the product
    detail page carry the same three lines)

    [null] is [None]. *)
Definition calculateDiscount (price : number) (discountPrice : optnum)
  : option number :=
  match discountPrice with
  | Num d =>
      if falsy (Num d) then None
      else
        let discountPercentage := (((price - d) / price) * 100)%float in
        Some (Math_round discountPercentage)
  | _ => None
  end.

Arguments calculateDiscount price%_float discountPrice.

(** ** Data model *)

(** Row of table [products] as the cart reads it. *)
Module Product.
Record t := {
  id : Z;
  name : string;
  price : number;
  discount_price : optnum;
  image_url : string;
  stock_quantity : Z
}.
End Product.

(** Row of table [cart_items], as [insert(...).select().single()] returns it. *)
Module Row.
Record t := {
  id : Z;
  user_id : string;
  product_id : Z;
  quantity : Z;
  created_at : string
}.
End Row.

(** [interface CartItem].  The declared type has [product] present; the
    total of CartContext still tests [!item.product], so the snapshot is
    carried as an option ([None] is [null] or [undefined]). *)
Module CartItem.
Record t := {
  id : Z;
  product_id : Z;
  quantity : Z;
  product : option Product.t
}.

(** [{ ...item, quantity }] *)
Definition with_quantity (item : t) (quantity : Z) : t :=
  {| id := id item; product_id := product_id item;
     quantity := quantity; product := product item |}.

(** [{ ...data, product: productData }]; the columns [user_id] and
    [created_at] of [data] are carried along by the spread and read by
    no one. *)
Definition of_row (data : Row.t) (productData : Product.t) : t :=
  {| id := Row.id data; product_id := Row.product_id data;
     quantity := Row.quantity data; product := Some productData |}.
End CartItem.

(** Row of the joined select of [fetchCartItems]: [products] is read as an
    array ([item.products[0]]). *)
Module JoinedRow.
Record t := {
  id : Z;
  product_id : Z;
  quantity : Z;
  products : list Product.t
}.
End JoinedRow.

(** [user] of [useAuth()]: only [user.id] is read. *)
Module User.
Record t := { id : string }.
End User.

Inductive Error : Type :=
| RemoteError (message : string)   (* the [error] of a supabase response *)
| JsError (message : string)       (* [new Error(message)] *)
| TypeError (message : string).    (* property read on [null]/[undefined] *)

(** ** The remote collaborator

    A supabase query resolves to [{ data, error }]. *)
Module Response.
Record t (A : Type) := { data : option A; error : option Error }.
Arguments data {A} _.
Arguments error {A} _.
End Response.

(** The queries the cart code issues, as the client answers them. *)
Record SupabaseClient := {
  (* from('products').select('*').eq('id', productId).single() *)
  products_single : Z -> Response.t Product.t;
  (* from('cart_items').insert([{user_id, product_id, quantity}]).select().single() *)
  cart_items_insert : string -> Z -> Z -> Response.t Row.t;
  (* from('cart_items').update({quantity}).eq('user_id', _).eq('product_id', _) *)
  cart_items_update : string -> Z -> Z -> Response.t unit;
  (* from('cart_items').delete().eq('user_id', _).eq('product_id', _) *)
  cart_items_delete : string -> Z -> Response.t unit;
  (* from('cart_items').delete().eq('user_id', _) *)
  cart_items_delete_all : string -> Response.t unit;
  (* from('cart_items').select(`id, product_id, quantity, products (...)`).eq('user_id', _) *)
  cart_items_select : option string -> Response.t (list JoinedRow.t);
  (* from('cart_items').update({quantity}).eq('id', itemId)    (Cart.tsx) *)
  cart_items_update_by_id : Z -> Z -> Response.t unit
}.

Inductive RemoteCall : Type :=
| SelectProduct (productId : Z)
| InsertCartItem (user_id : string) (product_id quantity : Z)
| UpdateCartItem (user_id : string) (product_id quantity : Z)
| DeleteCartItem (user_id : string) (product_id : Z)
| DeleteCart (user_id : string)
| SelectCart (user_id : option string)
| UpdateCartItemById (id quantity : Z).

Definition is_write (c : RemoteCall) : bool :=
  match c with
  | SelectProduct _ | SelectCart _ => false
  | _ => true
  end.

(** What a call leaves behind for an observer: the remote requests it
    issued, each with the error it came back with, and the lines written
    with [console.error]. *)
Inductive Event : Type :=
| Remote (c : RemoteCall) (err : option Error)
| ConsoleError (label : string) (e : Error).

(** ** Async functions over component state

    An async function either resolves ([Return]) or rejects ([Throw]); it
    reads and writes the component state [S] and emits events. *)
Inductive Result (A : Type) : Type :=
| Return (a : A)
| Throw (e : Error).
Arguments Return {A} a.
Arguments Throw {A} e.

Definition M (S A : Type) : Type := S -> Result A * S * list Event.

Definition ret {S A} (a : A) : M S A := fun s => (Return a, s, []).

Definition bind {S A B} (m : M S A) (k : A -> M S B) : M S B :=
  fun s =>
    match m s with
    | (Return a, s', ev) =>
        let '(r, s'', ev') := k a s' in (r, s'', ev ++ ev')
    | (Throw e, s', ev) => (Throw e, s', ev)
    end.

Definition throw {S A} (e : Error) : M S A := fun s => (Throw e, s, []).

(** [try { m } catch (error) { h error }] *)
Definition try_catch {S A} (m : M S A) (h : Error -> M S A) : M S A :=
  fun s =>
    match m s with
    | (Return a, s', ev) => (Return a, s', ev)
    | (Throw e, s', ev) =>
        let '(r, s'', ev') := h e s' in (r, s'', ev ++ ev')
    end.

(** [try { m } finally { f }] where [f] neither throws nor returns. *)
Definition try_finally {S A} (m : M S A) (f : M S unit) : M S A :=
  fun s =>
    let '(r, s', ev) := m s in
    let '(_, s'', ev') := f s' in (r, s'', ev ++ ev').

(** State update with an updater function, [setX(prev => f prev)]. *)
Definition modify {S} (f : S -> S) : M S unit := fun s => (Return tt, f s, []).

(** [await] of a supabase query. *)
Definition await {S A} (c : RemoteCall) (r : Response.t A) : M S (Response.t A) :=
  fun s => (Return r, s, [Remote c (Response.error r)]).

Definition console_error {S} (label : string) (e : Error) : M S unit :=
  fun s => (Return tt, s, [ConsoleError label e]).

Declare Scope js_scope.
Delimit Scope js_scope with js.
Notation "x <- m ;; k" := (bind m (fun x => k))
  (at level 61, m at next level, right associativity) : js_scope.
Notation "m ;; k" := (bind m (fun _ => k))
  (at level 61, right associativity) : js_scope.
Local Open Scope js_scope.

(** ** CartContext.tsx: the cart provider

    The component state is [items]; [cartCount] and [total] are recomputed
    from it by an effect on every change of [items]. *)
Module CartContext.

Definition State := list CartItem.t.

Section Provider.

Variable supabase : SupabaseClient.
Variable user : option User.t.

(** The callback of the reduce that gives [newTotal]. *)
Definition total_step (sum : number) (item : CartItem.t) : number :=
  match CartItem.product item with
  | None => sum
  | Some product =>
      let price :=
        match Product.discount_price product with
        | Num d => d                      (* !== undefined && !== null *)
        | Undefined | Null => Product.price product
        end in
      (sum + price * of_Z (CartItem.quantity item))%float
  end.

Definition cartCount (items : State) : Z :=
  fold_left (fun sum item => sum + CartItem.quantity item) items 0.

Definition total (items : State) : number :=
  fold_left total_step items 0%float.

(** [prev.map(item => item.product_id === productId ? { ...item, quantity } : item)] *)
Definition set_quantity (productId quantity : Z) (prev : State) : State :=
  map (fun item =>
         if CartItem.product_id item =? productId
         then CartItem.with_quantity item quantity
         else item) prev.

Definition updateQuantity (productId quantity : Z) : M State unit :=
  match user with
  | None => ret tt
  | Some u =>
      if quantity <? 1 then ret tt
      else
        try_catch
          (r <- await (UpdateCartItem (User.id u) productId quantity)
                  (cart_items_update supabase (User.id u) productId quantity) ;;
           match Response.error r with
           | Some e => throw e
           | None => modify (set_quantity productId quantity)
           end)
          (fun e => console_error "Error updating quantity:" e ;; throw e)
  end.

(** [items] is the value of the state the closure was created with;
    the updater of [setItems] runs on the state of the moment. *)
Definition addToCart (items : State) (productId quantity : Z) : M State unit :=
  match user with
  | None => ret tt
  | Some u =>
      try_catch
        (match find (fun item => CartItem.product_id item =? productId) items with
         | Some existingItem =>
             let newQuantity := CartItem.quantity existingItem + quantity in
             updateQuantity productId newQuantity
         | None =>
             p <- await (SelectProduct productId)
                    (products_single supabase productId) ;;
             match Response.error p, Response.data p with
             | None, Some productData =>
                 r <- await (InsertCartItem (User.id u) productId quantity)
                        (cart_items_insert supabase (User.id u) productId quantity) ;;
                 match Response.error r with
                 | Some e => throw e
                 | None =>
                     match Response.data r with
                     | Some row =>
                         let newItem := CartItem.of_row row productData in
                         modify (fun prev => prev ++ [newItem])
                     | None => ret tt
                     end
                 end
             | _, _ => throw (JsError "Product not found")
             end
         end)
        (fun e => console_error "Error adding to cart:" e ;; throw e)
  end.

Definition removeFromCart (productId : Z) : M State unit :=
  match user with
  | None => ret tt
  | Some u =>
      try_catch
        (r <- await (DeleteCartItem (User.id u) productId)
                (cart_items_delete supabase (User.id u) productId) ;;
         match Response.error r with
         | Some e => throw e
         | None =>
             modify (filter (fun item =>
                               negb (CartItem.product_id item =? productId)))
         end)
        (fun e => console_error "Error removing from cart:" e ;; throw e)
  end.

Definition clearCart : M State unit :=
  match user with
  | None => ret tt
  | Some u =>
      try_catch
        (r <- await (DeleteCart (User.id u))
                (cart_items_delete_all supabase (User.id u)) ;;
         match Response.error r with
         | Some e => throw e
         | None => modify (fun _ => [])
         end)
        (fun e => console_error "Error clearing cart:" e ;; throw e)
  end.

(** [{ ...item, product: item.products[0] }] *)
Definition transform (item : JoinedRow.t) : CartItem.t :=
  {| CartItem.id := JoinedRow.id item;
     CartItem.product_id := JoinedRow.product_id item;
     CartItem.quantity := JoinedRow.quantity item;
     CartItem.product := hd_error (JoinedRow.products item) |}.

Definition has_product (item : CartItem.t) : bool :=
  match CartItem.product item with Some _ => true | None => false end.

(** The catch of [fetchCartItems] logs and does not rethrow. *)
Definition fetchCartItems : M State unit :=
  try_catch
    (r <- await (SelectCart (option_map User.id user))
            (cart_items_select supabase (option_map User.id user)) ;;
     match Response.error r with
     | Some e => throw e
     | None =>
         let transformedData :=
           match Response.data r with
           | Some rows => filter has_product (map transform rows)
           | None => []
           end in
         modify (fun _ => transformedData)
     end)
    (fun e => console_error "Error fetching cart:" e).

(** The effect on [[user]]. *)
Definition on_user_change : M State unit :=
  match user with
  | Some _ => fetchCartItems
  | None => modify (fun _ => [])
  end.

End Provider.

End CartContext.

(** ** Cart.tsx: the cart page, with a state and a subtotal of its own *)
Module Cart.

Record State := {
  cartItems : list CartItem.t;
  loading : bool;
  error : option string;
  processing : bool
}.

Definition setCartItems (f : list CartItem.t -> list CartItem.t) : M State unit :=
  modify (fun s => {| cartItems := f (cartItems s); loading := loading s;
                      error := error s; processing := processing s |}).

Definition setError (e : option string) : M State unit :=
  modify (fun s => {| cartItems := cartItems s; loading := loading s;
                      error := e; processing := processing s |}).

Definition setProcessing (b : bool) : M State unit :=
  modify (fun s => {| cartItems := cartItems s; loading := loading s;
                      error := error s; processing := b |}).

Definition updateQuantity (supabase : SupabaseClient) (itemId newQuantity : Z)
  : M State unit :=
  if newQuantity <? 1 then ret tt
  else
    try_finally
      (try_catch
         (setProcessing true ;;
          r <- await (UpdateCartItemById itemId newQuantity)
                 (cart_items_update_by_id supabase itemId newQuantity) ;;
          match Response.error r with
          | Some e => throw e
          | None =>
              setCartItems
                (map (fun item =>
                        if CartItem.id item =? itemId
                        then CartItem.with_quantity item newQuantity
                        else item))
          end)
         (fun e =>
            console_error "Error updating cart:" e ;;
            setError (Some "Failed to update cart. Please try again.")))
      (setProcessing false).

(** [item.product.discount_price || item.product.price]; reading a
    property of a missing [product] throws a [TypeError]. *)
Definition getItemPrice (item : CartItem.t) : Result number :=
  match CartItem.product item with
  | None => Throw (TypeError "Cannot read properties of null")
  | Some product =>
      match Product.discount_price product with
      | Num d => if truthy d then Return d else Return (Product.price product)
      | Undefined | Null => Return (Product.price product)
      end
  end.

(** The callback of the reduce of [calculateSubtotal]; an exception leaves
    the reduce. *)
Definition subtotal_step (total : Result number) (item : CartItem.t)
  : Result number :=
  match total with
  | Throw e => Throw e
  | Return total =>
      match getItemPrice item with
      | Throw e => Throw e
      | Return price =>
          Return (total + price * of_Z (CartItem.quantity item))%float
      end
  end.

Definition calculateSubtotal (cartItems : list CartItem.t) : Result number :=
  fold_left subtotal_step cartItems (Return 0%float).

End Cart.

(** ** The pricing aggregator in the words of the specification *)

(** effective_unit_price = discount price if present and non-null, else
    list price. *)
Definition effective_unit_price (product : Product.t) : number :=
  match Product.discount_price product with
  | Num d => d
  | Undefined | Null => Product.price product
  end.

(** lineTotal(line) = effective_unit_price(line.product) x line.quantity. *)
Definition lineTotal (product : Product.t) (quantity : Z) : number :=
  (effective_unit_price product * of_Z quantity)%float.

(** itemCount(lines) = the sum of line.quantity. *)
Fixpoint itemCount (lines : list CartItem.t) : Z :=
  match lines with
  | [] => 0
  | line :: rest => CartItem.quantity line + itemCount rest
  end.

(** ** Predicates on carts and remotes *)

(** The discount price of a product, when it is a number, is truthy. *)
Definition discount_truthy (product : Product.t) : bool :=
  match Product.discount_price product with
  | Num d => truthy d
  | Undefined | Null => true
  end.

(** A line the two subtotals treat alike. *)
Definition agreeable (item : CartItem.t) : bool :=
  match CartItem.product item with
  | Some product => discount_truthy product
  | None => false
  end.

(** The lines of a cart that reference [productId]. *)
Definition lines_of (productId : Z) (items : list CartItem.t) : list CartItem.t :=
  filter (fun item => CartItem.product_id item =? productId) items.

(** At most one line per product. *)
Definition one_line_per_product (items : list CartItem.t) : Prop :=
  NoDup (map CartItem.product_id items).

(** Every line has a quantity of at least 1. *)
Definition quantities_positive (items : list CartItem.t) : Prop :=
  Forall (fun item => 1 <= CartItem.quantity item) items.

(** The remote answers an insert with the row it was sent. *)
Definition returns_inserted_row (supabase : SupabaseClient) : Prop :=
  forall user_id product_id quantity row,
    Response.data (cart_items_insert supabase user_id product_id quantity)
    = Some row ->
    Row.product_id row = product_id /\ Row.quantity row = quantity.

(** What the user (or a change of the signed-in user) can make the
    provider do. *)
Inductive Op : Type :=
| Add (productId quantity : Z)
| SetQuantity (productId quantity : Z)
| Remove (productId : Z)
| Clear
| UserChange.

(** Operations run one after the other; each one is called on the render
    that followed the previous one, so the [items] its closure holds are
    the items of the state. *)
Definition perform (supabase : SupabaseClient) (user : option User.t) (o : Op)
           (items : CartContext.State)
  : Result unit * CartContext.State * list Event :=
  match o with
  | Add productId quantity =>
      CartContext.addToCart supabase user items productId quantity items
  | SetQuantity productId quantity =>
      CartContext.updateQuantity supabase user productId quantity items
  | Remove productId => CartContext.removeFromCart supabase user productId items
  | Clear => CartContext.clearCart supabase user items
  | UserChange => CartContext.on_user_change supabase user items
  end.




(** A selected row whose [products] has a first element. *)
Definition carries_product (row : JoinedRow.t) : bool :=
  match JoinedRow.products row with
  | [] => false
  | _ :: _ => true
  end.

Definition rows_with_product (rows : list JoinedRow.t) : list JoinedRow.t :=
  filter carries_product rows.

(** ** More of the storefront *)

(** The remote writes among the events of a call. *)
Definition is_write_event (ev : Event) : bool :=
  match ev with
  | Remote c _ => is_write c
  | ConsoleError _ _ => false
  end.

Definition writes (events : list Event) : list Event :=
  filter is_write_event events.

(** Every row the remote selects has a quantity of at least 1. *)
Definition selects_positive (supabase : SupabaseClient) : Prop :=
  forall user_id rows,
    Response.data (cart_items_select supabase user_id) = Some rows ->
    Forall (fun row => 1 <= JoinedRow.quantity row) rows.

(** An operation that does not ask for a line of quantity below 1. *)
Definition asks_positive (o : Op) : Prop :=
  match o with
  | Add _ quantity => 1 <= quantity
  | _ => True
  end.

(** Cart.tsx, the summary below the table: [calculateTax] and
    [calculateTotal]; an exception of [calculateSubtotal] goes through. *)
Module CartSummary.

Definition calculateTax (cartItems : list CartItem.t) : Result number :=
  match Cart.calculateSubtotal cartItems with
  | Return subtotal => Return (subtotal * 0.15)%float
  | Throw e => Throw e
  end.

Definition calculateTotal (cartItems : list CartItem.t) : Result number :=
  match Cart.calculateSubtotal cartItems with
  | Return subtotal =>
      match calculateTax cartItems with
      | Return tax => Return (subtotal + tax)%float
      | Throw e => Throw e
      end
  | Throw e => Throw e
  end.

End CartSummary.

(** Checkout.tsx, [handleSubmit]: the rows of [order_items] built from the
    items of the provider. *)
Module Checkout.

Record OrderItem := {
  order_id : Z;
  product_id : Z;
  quantity : Z;
  price : number
}.

(** The callback of [items.map]; [item.product.discount_price] on a
    missing product throws. *)
Definition order_item (order_id : Z) (item : CartItem.t) : Result OrderItem :=
  match Cart.getItemPrice item with
  | Return price =>
      Return {| order_id := order_id;
                product_id := CartItem.product_id item;
                quantity := CartItem.quantity item;
                price := price |}
  | Throw e => Throw e
  end.

Fixpoint orderItems (order_id : Z) (items : list CartItem.t)
  : Result (list OrderItem) :=
  match items with
  | [] => Return []
  | item :: rest =>
      match order_item order_id item with
      | Throw e => Throw e
      | Return row =>
          match orderItems order_id rest with
          | Throw e => Throw e
          | Return rows => Return (row :: rows)
          end
      end
  end.

(** What the rows of an order add up to. *)
Definition items_amount (rows : list OrderItem) : number :=
  fold_left (fun sum row => (sum + price row * of_Z (quantity row))%float)
            rows 0%float.

End Checkout.

(** The product detail page: the quantity selector.  Its callers pass
    [quantity - 1], [quantity + 1] or [parseInt(...) || 1]: integers. *)
Module ProductDetail.

(** [handleQuantityChange(value)] as the new value of the state
    [quantity]; [product] is the loaded product, if any. *)
Definition handleQuantityChange (product : option Product.t) (value : Z)
           (quantity : Z) : Z :=
  if value <? 1 then quantity
  else
    match product with
    | Some p =>
        if value >? Product.stock_quantity p then quantity else value
    | None => value
    end.

End ProductDetail.

(** lib/imageUtils.ts *)
Module ImageUtils.

Definition PLACEHOLDER_IMAGE : string :=
  "data:image/svg+xml;base64,PHN2ZyB3aWR0aD0iMjAwIiBoZWlnaHQ9IjIwMCIgdmlld0JveD0iMCAwIDIwMCAyMDAiIGZpbGw9Im5vbmUiIHhtbG5zPSJodHRwOi8vd3d3LnczLm9yZy8yMDAwL3N2ZyI+PHJlY3Qgd2lkdGg9IjIwMCIgaGVpZ2h0PSIyMDAiIGZpbGw9IiNFNUU3RUIiLz48cGF0aCBkPSJNODAgOTBIMTIwVjExMEg4MFY5MFoiIGZpbGw9IiM5Q0EzQUYiLz48L3N2Zz4=".

(** [s.startsWith(p)] *)
Definition startsWith (s p : string) : bool := String.prefix p s.

(** [s.includes(p)] *)
Fixpoint includes (s p : string) : bool :=
  String.prefix p s ||
  match s with
  | EmptyString => false
  | String _ rest => includes rest p
  end.

(** [!s] on a string: only the empty string is falsy. *)
Definition blank (s : string) : bool :=
  match s with EmptyString => true | String _ _ => false end.

Definition getSafeImageUrl (url : string) (fallbackUrl : option string) : string :=
  if blank url then
    match fallbackUrl with
    | Some f => if blank f then PLACEHOLDER_IMAGE else f
    | None => PLACEHOLDER_IMAGE
    end
  else if startsWith url "data:" then url
  else if includes url "images.unsplash.com" && negb (includes url "&w=") then
    url ++ (if includes url "?" then "&" else "?") ++ "w=400&h=400&fit=crop&q=80"
  else url.

Record ImageProps := {
  src : string;
  alt : string;
  loading : string;
  crossOrigin : string;
  referrerPolicy : string
}.

Definition getImageProps (url alt : string) : ImageProps :=
  {| src := getSafeImageUrl url None;
     alt := alt;
     loading := "lazy";
     crossOrigin := "anonymous";
     referrerPolicy := "no-referrer" |}.

End ImageUtils.

(** ** Sample data *)

Definition sample_product (id : Z) (price : number) (discount : optnum)
  : Product.t :=
  {| Product.id := id; Product.name := "product";
     Product.price := price; Product.discount_price := discount;
     Product.image_url := "/images/product.jpg";
     Product.stock_quantity := 10 |}.
Arguments sample_product id price%_float discount.

Definition sample_line (id productId quantity : Z) (product : option Product.t)
  : CartItem.t :=
  {| CartItem.id := id; CartItem.product_id := productId;
     CartItem.quantity := quantity; CartItem.product := product |}.

(** A line whose product is listed at 10.00 with a discount price of 0.00. *)
Definition free_line : CartItem.t :=
  sample_line 1 7 1 (Some (sample_product 7 10 (Num 0))).

(** A line whose product row could not be joined. *)
Definition orphan_line : CartItem.t := sample_line 2 9 1 None.

Definition ok {A} (a : option A) : Response.t A :=
  {| Response.data := a; Response.error := None |}.

Definition failed {A} (message : string) : Response.t A :=
  {| Response.data := None; Response.error := Some (RemoteError message) |}.

(** A remote that accepts every request and answers an insert with the
    row it stored. *)
Definition accepting : SupabaseClient :=
  {| products_single := fun productId =>
       ok (Some (sample_product productId 50 Null));
     cart_items_insert := fun user_id product_id quantity =>
       ok (Some {| Row.id := 100 + product_id; Row.user_id := user_id;
                   Row.product_id := product_id; Row.quantity := quantity;
                   Row.created_at := "2024-01-01T00:00:00Z" |});
     cart_items_update := fun _ _ _ => ok None;
     cart_items_delete := fun _ _ => ok None;
     cart_items_delete_all := fun _ => ok None;
     cart_items_select := fun _ => ok (Some []);
     cart_items_update_by_id := fun _ _ => ok None |}.


(** A remote whose table holds two rows for product 7 (the table has no
    uniqueness constraint) and a row for product 9 that comes without a
    product. *)
Definition stored_twice : SupabaseClient :=
  {| products_single := products_single accepting;
     cart_items_insert := cart_items_insert accepting;
     cart_items_update := cart_items_update accepting;
     cart_items_delete := cart_items_delete accepting;
     cart_items_delete_all := cart_items_delete_all accepting;
     cart_items_select := fun _ =>
       ok (Some [ {| JoinedRow.id := 1; JoinedRow.product_id := 7;
                     JoinedRow.quantity := 1;
                     JoinedRow.products := [sample_product 7 50 Null] |};
                  {| JoinedRow.id := 2; JoinedRow.product_id := 7;
                     JoinedRow.quantity := 2;
                     JoinedRow.products := [sample_product 7 50 Null] |};
                  {| JoinedRow.id := 3; JoinedRow.product_id := 9;
                     JoinedRow.quantity := 1;
                     JoinedRow.products := [] |} ]);
     cart_items_update_by_id := cart_items_update_by_id accepting |}.

(** A remote that cannot be reached: products can still be read from a
    cache, every write fails. *)
Definition unreachable : SupabaseClient :=
  {| products_single := fun productId =>
       ok (Some (sample_product productId 50 Null));
     cart_items_insert := fun _ _ _ => failed "TypeError: Failed to fetch";
     cart_items_update := fun _ _ _ => failed "TypeError: Failed to fetch";
     cart_items_delete := fun _ _ => failed "TypeError: Failed to fetch";
     cart_items_delete_all := fun _ => failed "TypeError: Failed to fetch";
     cart_items_select := fun _ => failed "TypeError: Failed to fetch";
     cart_items_update_by_id := fun _ _ => failed "TypeError: Failed to fetch" |}.

(** A remote where no product can be read. *)
Definition without_products : SupabaseClient :=
  {| products_single := fun _ => failed "JSON object requested, multiple (or no) rows returned";
     cart_items_insert := cart_items_insert accepting;
     cart_items_update := cart_items_update accepting;
     cart_items_delete := cart_items_delete accepting;
     cart_items_delete_all := cart_items_delete_all accepting;
     cart_items_select := cart_items_select accepting;
     cart_items_update_by_id := cart_items_update_by_id accepting |}.

Definition alice : User.t := {| User.id := "6f1c-alice" |}.

(** * Properties *)

(** ** Numbers *)

Example round_samples :
  map Math_round [2.5; 2.4; (-2.5); (-2.6); 0.5; 0.49999999999999994;
                  20.000000000000004; 1e300; infinity; neg_infinity]%float
  = [3; 2; (-2); (-3); 1; 0; 20; 1e300; infinity; neg_infinity]%float.
Proof. vm_compute. reflexivity. Qed.

Example round_neg_zero :
  (1 / Math_round (-0.2) =? neg_infinity)%float = true.
Proof. vm_compute. reflexivity. Qed.

Example of_Z_samples :
  map of_Z [0; 1; 3; -2; 2147483647; 9007199254740993]
  = [0; 1; 3; (-2); 2147483647; 9007199254740992]%float.
Proof. vm_compute. reflexivity. Qed.

Lemma falsy_Num (x : number) : falsy (Num x) = negb (truthy x).
Proof. reflexivity. Qed.

(** ** Pricing *)

Section Pricing.

Import CartContext.

Lemma cartCount_from (items : list CartItem.t) (acc : Z) :
  fold_left (fun sum item => sum + CartItem.quantity item) items acc
  = acc + itemCount items.
Proof.
  revert acc.
  induction items as [| item rest IH]; intro acc; simpl.
  - lia.
  - rewrite IH. lia.
Qed.

(** The reducer of CartContext prices a line with a product by the rule
    of the specification. *)
Lemma total_step_priced (sum : number) (item : CartItem.t) (product : Product.t) :
  CartItem.product item = Some product ->
  total_step sum item = (sum + lineTotal product (CartItem.quantity item))%float.
Proof.
  intro Hp. unfold total_step, lineTotal, effective_unit_price.
  rewrite Hp. destruct (Product.discount_price product); reflexivity.
Qed.

(** ... and skips a line without one. *)
Lemma total_step_orphan (sum : number) (item : CartItem.t) :
  CartItem.product item = None -> total_step sum item = sum.
Proof. intro Hp. unfold total_step. rewrite Hp. reflexivity. Qed.

(** The cart page picks the same price for every product whose discount
    price is not a falsy number. *)
Lemma getItemPrice_priced (item : CartItem.t) (product : Product.t) :
  CartItem.product item = Some product ->
  discount_truthy product = true ->
  Cart.getItemPrice item = Return (effective_unit_price product).
Proof.
  intros Hp Ht. unfold Cart.getItemPrice, effective_unit_price.
  rewrite Hp. unfold discount_truthy in Ht.
  destruct (Product.discount_price product); try reflexivity.
  rewrite Ht. reflexivity.
Qed.

Lemma subtotal_step_agrees (sum : number) (item : CartItem.t) :
  agreeable item = true ->
  Cart.subtotal_step (Return sum) item = Return (total_step sum item).
Proof.
  unfold agreeable. intro Ha.
  destruct (CartItem.product item) as [product |] eqn:Hp; [| discriminate].
  unfold Cart.subtotal_step.
  rewrite (getItemPrice_priced item product Hp Ha).
  rewrite (total_step_priced sum item product Hp).
  reflexivity.
Qed.

Lemma calculateSubtotal_from (items : list CartItem.t) (sum : number) :
  forallb agreeable items = true ->
  fold_left Cart.subtotal_step items (Return sum)
  = Return (fold_left total_step items sum).
Proof.
  revert sum.
  induction items as [| item rest IH]; intros sum Hall.
  - reflexivity.
  - cbn [fold_left forallb] in *.
    apply andb_true_iff in Hall as [Ha Hrest].
    rewrite (subtotal_step_agrees sum item Ha).
    apply IH, Hrest.
Qed.

(** Where every line has its product and no discount price is a falsy
    number, the subtotal of the cart page is the total of the provider. *)
Lemma calculateSubtotal_total (items : list CartItem.t) :
  forallb agreeable items = true ->
  Cart.calculateSubtotal items = Return (total items).
Proof. apply calculateSubtotal_from. Qed.

End Pricing.

(** Spec examples: discount 8.00 on 10.00, three pieces; no discount on
    50.00, two pieces. *)
Example line_total_discounted :
  let line := sample_line 1 7 3 (Some (sample_product 7 10 (Num 8))) in
  CartContext.total [line] = 24%float /\
  Cart.calculateSubtotal [line] = Return 24%float /\
  calculateDiscount 10 (Num 8) = Some 20%float.
Proof. vm_compute. repeat split; reflexivity. Qed.

Example line_total_undiscounted :
  let line := sample_line 1 7 2 (Some (sample_product 7 50 Undefined)) in
  CartContext.total [line] = 100%float /\
  Cart.calculateSubtotal [line] = Return 100%float.
Proof. vm_compute. split; reflexivity. Qed.

(** C1 (evaluation at the failing input): on a line whose product has the
    discount price 0.00 against a list price of 10.00 - a discount price
    that is present and not null - [getItemPrice] of the cart page returns
    the list price 10.00, while the rule of the specification, which the
    provider follows, gives the discount price 0.00. *)
Theorem getItemPrice_zero_discount :
  Cart.getItemPrice free_line = Return 10%float /\
  option_map effective_unit_price (CartItem.product free_line) = Some 0%float /\
  CartContext.total_step 0%float free_line = 0%float.
Proof. vm_compute. repeat split; reflexivity. Qed.

(** C9: the aggregates of the empty cart are zero, and the count of the
    provider is the sum of the quantities of all lines. *)
Theorem aggregates_of_cart :
  CartContext.cartCount [] = 0 /\
  CartContext.total [] = 0%float /\
  Cart.calculateSubtotal [] = Return 0%float /\
  forall items, CartContext.cartCount items = itemCount items.
Proof.
  repeat split.
  intro items. unfold CartContext.cartCount.
  rewrite cartCount_from. lia.
Qed.

(** C10 (evaluation at the failing inputs): the two subtotals differ on a
    line with discount price 0.00 (provider: 0.00, cart page: 10.00) and
    on a line without product snapshot (provider: skipped, cart page:
    TypeError). *)
Theorem subtotals_differ :
  CartContext.total [free_line] = 0%float /\
  Cart.calculateSubtotal [free_line] = Return 10%float /\
  CartContext.total [orphan_line] = 0%float /\
  Cart.calculateSubtotal [orphan_line]
  = Throw (TypeError "Cannot read properties of null").
Proof. vm_compute. repeat split; reflexivity. Qed.

(** ** The discount percentage *)

(** C7 (as stated, refuted): with a list price of 0 and a discount price
    of 5 the division by the list price is carried out and the result
    is -Infinity, not the absence of a percentage; and with a discount
    price of 0 on a list price of 10 no percentage is returned although
    the discount is present and the formula gives 100. *)
Lemma calculateDiscount_unguarded :
  calculateDiscount 0 (Num 5) = Some neg_infinity /\
  calculateDiscount 10 (Num 0) = None /\
  Math_round (((10 - 0) / 10) * 100) = 100%float.
Proof. vm_compute. repeat split; reflexivity. Qed.

(** C7 (amended): for a truthy discount price - present, not null, not
    0 and not NaN - [calculateDiscount] is the rounded percentage; for a
    falsy one it returns [null]; and [null] is returned for no other
    reason, whatever the list price is: there is no guard on a list price
    of 0. *)
Theorem calculateDiscount_cases (price : number) (discountPrice : optnum) :
  (forall d, discountPrice = Num d -> truthy d = true ->
     calculateDiscount price discountPrice
     = Some (Math_round (((price - d) / price) * 100)%float)) /\
  (falsy discountPrice = true -> calculateDiscount price discountPrice = None) /\
  (calculateDiscount price discountPrice = None -> falsy discountPrice = true).
Proof.
  repeat split.
  - intros d -> Ht. unfold calculateDiscount.
    rewrite falsy_Num, Ht. reflexivity.
  - destruct discountPrice as [| | d]; try reflexivity.
    intro Hf. unfold calculateDiscount. rewrite Hf. reflexivity.
  - destruct discountPrice as [| | d]; try reflexivity.
    unfold calculateDiscount.
    destruct (falsy (Num d)); [reflexivity | discriminate].
Qed.

Lemma calculateDiscount_cases_witness :
  truthy 8 = true /\ calculateDiscount 10 (Num 8) = Some 20%float.
Proof.
  split.
  - reflexivity.
  - exact (proj1 (calculateDiscount_cases 10%float (Num 8)) 8%float eq_refl eq_refl).
Defined.

(** ** Running the operations of the provider *)

Section Runs.

Import CartContext.

Variable supabase : SupabaseClient.

Ltac run :=
  unfold try_catch, bind, await, throw, modify, ret, console_error; cbn.

Lemma updateQuantity_signed_out (productId quantity : Z) (items : State) :
  updateQuantity supabase None productId quantity items = (Return tt, items, []).
Proof. reflexivity. Qed.

Lemma updateQuantity_below_one (user : option User.t) (productId quantity : Z)
      (items : State) :
  quantity < 1 ->
  updateQuantity supabase user productId quantity items = (Return tt, items, []).
Proof.
  intro Hq. unfold updateQuantity.
  destruct user as [u |]; [| reflexivity].
  apply Z.ltb_lt in Hq. rewrite Hq. reflexivity.
Qed.

Lemma updateQuantity_run (u : User.t) (productId quantity : Z) (items : State) :
  1 <= quantity ->
  updateQuantity supabase (Some u) productId quantity items
  = match Response.error
            (cart_items_update supabase (User.id u) productId quantity) with
    | Some e =>
        (Throw e, items,
         [Remote (UpdateCartItem (User.id u) productId quantity) (Some e);
          ConsoleError "Error updating quantity:" e])
    | None =>
        (Return tt, set_quantity productId quantity items,
         [Remote (UpdateCartItem (User.id u) productId quantity) None])
    end.
Proof.
  intro Hq. unfold updateQuantity.
  apply Z.ltb_ge in Hq. rewrite Hq. run.
  destruct (Response.error _) as [e |]; reflexivity.
Qed.

Lemma removeFromCart_run (u : User.t) (productId : Z) (items : State) :
  removeFromCart supabase (Some u) productId items
  = match Response.error (cart_items_delete supabase (User.id u) productId) with
    | Some e =>
        (Throw e, items,
         [Remote (DeleteCartItem (User.id u) productId) (Some e);
          ConsoleError "Error removing from cart:" e])
    | None =>
        (Return tt,
         filter (fun item => negb (CartItem.product_id item =? productId)) items,
         [Remote (DeleteCartItem (User.id u) productId) None])
    end.
Proof.
  unfold removeFromCart. run.
  destruct (Response.error _) as [e |]; reflexivity.
Qed.

Lemma clearCart_run (u : User.t) (items : State) :
  clearCart supabase (Some u) items
  = match Response.error (cart_items_delete_all supabase (User.id u)) with
    | Some e =>
        (Throw e, items,
         [Remote (DeleteCart (User.id u)) (Some e);
          ConsoleError "Error clearing cart:" e])
    | None => (Return tt, [], [Remote (DeleteCart (User.id u)) None])
    end.
Proof.
  unfold clearCart. run.
  destruct (Response.error _) as [e |]; reflexivity.
Qed.

(** The branch of [addToCart] for a product that has a line already. *)
Lemma addToCart_existing (u : User.t) (snapshot : State) (productId quantity : Z)
      (existingItem : CartItem.t) (items : State) :
  find (fun item => CartItem.product_id item =? productId) snapshot
  = Some existingItem ->
  addToCart supabase (Some u) snapshot productId quantity items
  = let newQuantity := CartItem.quantity existingItem + quantity in
    if newQuantity <? 1 then (Return tt, items, [])
    else
      match Response.error
              (cart_items_update supabase (User.id u) productId newQuantity) with
      | Some e =>
          (Throw e, items,
           [Remote (UpdateCartItem (User.id u) productId newQuantity) (Some e);
            ConsoleError "Error updating quantity:" e;
            ConsoleError "Error adding to cart:" e])
      | None =>
          (Return tt, set_quantity productId newQuantity items,
           [Remote (UpdateCartItem (User.id u) productId newQuantity) None])
      end.
Proof.
  intro Hfind. unfold addToCart. rewrite Hfind. cbv zeta.
  set (newQuantity := CartItem.quantity existingItem + quantity).
  unfold try_catch at 1.
  destruct (newQuantity <? 1) eqn:Hq.
  - apply Z.ltb_lt in Hq.
    rewrite (updateQuantity_below_one (Some u) productId newQuantity items Hq).
    reflexivity.
  - apply Z.ltb_ge in Hq.
    rewrite (updateQuantity_run u productId newQuantity items Hq).
    destruct (Response.error _) as [e |]; reflexivity.
Qed.

(** The branch of [addToCart] for a product without a line. *)
Lemma addToCart_new (u : User.t) (snapshot : State) (productId quantity : Z)
      (items : State) :
  find (fun item => CartItem.product_id item =? productId) snapshot = None ->
  addToCart supabase (Some u) snapshot productId quantity items
  = let p := products_single supabase productId in
    let r := cart_items_insert supabase (User.id u) productId quantity in
    match Response.error p, Response.data p with
    | None, Some productData =>
        match Response.error r with
        | Some e =>
            (Throw e, items,
             [Remote (SelectProduct productId) None;
              Remote (InsertCartItem (User.id u) productId quantity) (Some e);
              ConsoleError "Error adding to cart:" e])
        | None =>
            (Return tt,
             match Response.data r with
             | Some row => items ++ [CartItem.of_row row productData]
             | None => items
             end,
             [Remote (SelectProduct productId) None;
              Remote (InsertCartItem (User.id u) productId quantity) None])
        end
    | perr, _ =>
        (Throw (JsError "Product not found"), items,
         [Remote (SelectProduct productId) perr;
          ConsoleError "Error adding to cart:" (JsError "Product not found")])
    end.
Proof.
  intro Hfind. unfold addToCart. rewrite Hfind. run.
  destruct (Response.error (products_single supabase productId)) as [pe |];
    destruct (Response.data (products_single supabase productId)) as [pd |];
    try reflexivity.
  destruct (Response.error (cart_items_insert _ _ _ _)) as [e |]; [reflexivity |].
  destruct (Response.data (cart_items_insert _ _ _ _)) as [row |]; reflexivity.
Qed.

End Runs.

(** ** Lines, by product *)

Section Lines.

Import CartContext.

Variable productId : Z.

Let selects (item : CartItem.t) : bool := CartItem.product_id item =? productId.

Lemma lines_of_nil_find (items : list CartItem.t) :
  lines_of productId items = [] -> find selects items = None.
Proof.
  unfold lines_of. fold selects.
  induction items as [| item rest IH]; simpl; [reflexivity |].
  destruct (selects item); [discriminate | exact IH].
Qed.

Lemma find_none_lines_of (items : list CartItem.t) :
  find selects items = None -> lines_of productId items = [].
Proof.
  unfold lines_of. fold selects.
  induction items as [| item rest IH]; simpl; [reflexivity |].
  destruct (selects item); [discriminate | exact IH].
Qed.


Lemma find_skips (items more : list CartItem.t) :
  find selects items = None -> find selects (items ++ more) = find selects more.
Proof.
  induction items as [| item rest IH]; simpl; [reflexivity |].
  destruct (selects item); [discriminate | exact IH].
Qed.

Lemma set_quantity_untouched (quantity : Z) (items : list CartItem.t) :
  find selects items = None -> set_quantity productId quantity items = items.
Proof.
  unfold set_quantity, selects.
  induction items as [| item rest IH]; simpl; [reflexivity |].
  destruct (CartItem.product_id item =? productId); [discriminate |].
  intro Hf. rewrite (IH Hf). reflexivity.
Qed.

Lemma set_quantity_app (quantity : Z) (items more : list CartItem.t) :
  set_quantity productId quantity (items ++ more)
  = set_quantity productId quantity items ++ set_quantity productId quantity more.
Proof. apply map_app. Qed.

Lemma set_quantity_products (quantity : Z) (items : list CartItem.t) :
  map CartItem.product_id (set_quantity productId quantity items)
  = map CartItem.product_id items.
Proof.
  unfold set_quantity. rewrite map_map. apply map_ext.
  intro item. destruct (CartItem.product_id item =? productId); reflexivity.
Qed.

Lemma set_quantity_positive (quantity : Z) (items : list CartItem.t) :
  1 <= quantity -> quantities_positive items ->
  quantities_positive (set_quantity productId quantity items).
Proof.
  intros Hq Hall. unfold quantities_positive, set_quantity.
  apply Forall_map. revert Hall. apply Forall_impl.
  intros item Hitem.
  destruct (CartItem.product_id item =? productId); [exact Hq | exact Hitem].
Qed.

Lemma remove_untouched (items : list CartItem.t) :
  find selects items = None ->
  filter (fun item => negb (CartItem.product_id item =? productId)) items = items.
Proof.
  unfold selects.
  induction items as [| item rest IH]; simpl; [reflexivity |].
  destruct (CartItem.product_id item =? productId); [discriminate |].
  intro Hf. simpl. rewrite (IH Hf). reflexivity.
Qed.

End Lines.



(** ** Quantities below 1 *)

(** C4: [updateQuantity] with a quantity below 1 - zero or negative - is
    a silent no-op, in the provider and on the cart page alike: it
    resolves, issues no remote request, logs nothing and leaves the whole
    state as it was. *)
Theorem updateQuantity_below_one_noop
        (supabase : SupabaseClient) (user : option User.t)
        (productId itemId quantity : Z)
        (items : CartContext.State) (page : Cart.State) :
  quantity < 1 ->
  CartContext.updateQuantity supabase user productId quantity items
  = (Return tt, items, []) /\
  Cart.updateQuantity supabase itemId quantity page = (Return tt, page, []).
Proof.
  intro Hq. split.
  - apply updateQuantity_below_one, Hq.
  - unfold Cart.updateQuantity.
    apply Z.ltb_lt in Hq. rewrite Hq. reflexivity.
Qed.

Lemma updateQuantity_below_one_noop_witness :
  let items := [sample_line 1 7 3 (Some (sample_product 7 10 (Num 8)))] in
  let page := {| Cart.cartItems := items; Cart.loading := false;
                 Cart.error := None; Cart.processing := false |} in
  CartContext.updateQuantity accepting (Some alice) 7 0 items
  = (Return tt, items, []) /\
  Cart.updateQuantity accepting 1 (-2) page = (Return tt, page, []).
Proof.
  intros items page. split.
  - apply (updateQuantity_below_one_noop accepting (Some alice) 7 1 0 items page).
    lia.
  - apply (updateQuantity_below_one_noop accepting (Some alice) 7 1 (-2) items page).
    lia.
Defined.

(** ** Failure of the remote write *)

Section Failure.

Import CartContext.

Variable supabase : SupabaseClient.
Variable user : option User.t.
Variable snapshot : State.
Variables productId quantity : Z.

(** Whenever [addToCart] rejects, the items are those it started from. *)
Lemma addToCart_rejected_unchanged
      (items items' : State) (e : Error) (events : list Event) :
  addToCart supabase user snapshot productId quantity items
  = (Throw e, items', events) ->
  items' = items.
Proof.
  destruct user as [u |]; [| discriminate].
  destruct (find (fun item => CartItem.product_id item =? productId) snapshot)
    as [existingItem |] eqn:Hfind.
  - rewrite (addToCart_existing supabase u snapshot productId quantity
               existingItem items Hfind).
    cbv zeta.
    destruct (_ <? 1); [discriminate |].
    destruct (Response.error _); [| discriminate].
    intro Hrun. injection Hrun as _ Hitems _. symmetry. exact Hitems.
  - rewrite (addToCart_new supabase u snapshot productId quantity items Hfind).
    cbv zeta.
    destruct (Response.error (products_single supabase productId));
      destruct (Response.data (products_single supabase productId));
      try (intro Hrun; injection Hrun as _ Hitems _; symmetry; exact Hitems).
    destruct (Response.error (cart_items_insert _ _ _ _)); [| discriminate].
    intro Hrun. injection Hrun as _ Hitems _. symmetry. exact Hitems.
Qed.

End Failure.

(** C3: if a remote write issued by [addToCart] comes back with an error,
    the items after the call are the items before it, and the call
    rejects with that very error. *)
Theorem addToCart_write_failure
        (supabase : SupabaseClient) (user : option User.t)
        (snapshot : CartContext.State) (productId quantity : Z)
        (items items' : CartContext.State) (r : Result unit)
        (events : list Event) (c : RemoteCall) (e : Error) :
  CartContext.addToCart supabase user snapshot productId quantity items
  = (r, items', events) ->
  In (Remote c (Some e)) events ->
  is_write c = true ->
  items' = items /\ r = Throw e.
Proof.
  intros Hrun Hin Hwrite.
  destruct user as [u |].
  2:{ injection Hrun as _ _ Hev. subst events. destruct Hin. }
  destruct (find (fun item => CartItem.product_id item =? productId) snapshot)
    as [existingItem |] eqn:Hfind.
  - rewrite (addToCart_existing supabase u snapshot productId quantity
               existingItem items Hfind) in Hrun.
    cbv zeta in Hrun.
    destruct (_ <? 1).
    { injection Hrun as _ _ Hev. subst events. destruct Hin. }
    destruct (Response.error _) as [e' |];
      injection Hrun as Hr Hitems Hev; subst r items' events.
    + destruct Hin as [Hin | [Hin | [Hin | []]]]; try discriminate.
      injection Hin as _ He. subst e'. split; reflexivity.
    + destruct Hin as [Hin | []]. discriminate.
  - rewrite (addToCart_new supabase u snapshot productId quantity items Hfind)
      in Hrun.
    cbv zeta in Hrun.
    assert (Hread : forall perr label e0,
               In (Remote c (Some e))
                  [Remote (SelectProduct productId) perr; ConsoleError label e0]
               -> False).
    { intros perr label e0 [H | [H | []]]; [| discriminate].
      injection H as Hc _. subst c. discriminate. }
    destruct (Response.error (products_single supabase productId)) as [pe |];
      destruct (Response.data (products_single supabase productId)) as [pd |];
      try (injection Hrun as _ _ Hev; subst events;
           exfalso; exact (Hread _ _ _ Hin)).
    destruct (Response.error (cart_items_insert _ _ _ _)) as [e' |];
      injection Hrun as Hr Hitems Hev; subst r items' events.
    + destruct Hin as [Hin | [Hin | [Hin | []]]]; try discriminate.
      injection Hin as _ He. subst e'. split; reflexivity.
    + destruct Hin as [Hin | [Hin | []]]; discriminate.
Qed.

Lemma addToCart_write_failure_witness :
  let items := [sample_line 1 9 3 (Some (sample_product 9 10 (Num 8)))] in
  let e := RemoteError "TypeError: Failed to fetch" in
  CartContext.addToCart unreachable (Some alice) items 7 1 items
  = (Throw e, items,
     [Remote (SelectProduct 7) None;
      Remote (InsertCartItem "6f1c-alice" 7 1) (Some e);
      ConsoleError "Error adding to cart:" e]) /\
  (items = items /\ Throw e = Throw (A := unit) e).
Proof.
  intros items e. split.
  - reflexivity.
  - apply (addToCart_write_failure unreachable (Some alice) items 7 1 items items
             (Throw e)
             [Remote (SelectProduct 7) None;
              Remote (InsertCartItem "6f1c-alice" 7 1) (Some e);
              ConsoleError "Error adding to cart:" e]
             (InsertCartItem "6f1c-alice" 7 1) e).
    + reflexivity.
    + right. left. reflexivity.
    + reflexivity.
Defined.

(** ** Removing a line *)

(** C8: where the remote delete succeeds, [removeFromCart] on a cart whose
    only line is the one of the product resolves with the empty cart, and
    on a cart without a line for the product it resolves and leaves the
    cart as it is (signed out, it resolves without a request). *)
Theorem removeFromCart_cases
        (supabase : SupabaseClient) (u : User.t) (productId : Z)
        (line : CartItem.t) (items : CartContext.State) :
  Response.error (cart_items_delete supabase (User.id u) productId) = None ->
  (CartItem.product_id line = productId ->
   CartContext.removeFromCart supabase (Some u) productId [line]
   = (Return tt, [], [Remote (DeleteCartItem (User.id u) productId) None])) /\
  (lines_of productId items = [] ->
   CartContext.removeFromCart supabase (Some u) productId items
   = (Return tt, items, [Remote (DeleteCartItem (User.id u) productId) None]) /\
   CartContext.removeFromCart supabase None productId items
   = (Return tt, items, [])).
Proof.
  intro Hok. split.
  - intro Hline. rewrite removeFromCart_run, Hok. simpl.
    rewrite Hline, Z.eqb_refl. reflexivity.
  - intro Hnone. split; [| reflexivity].
    rewrite removeFromCart_run, Hok.
    rewrite (remove_untouched productId items (lines_of_nil_find productId items Hnone)).
    reflexivity.
Qed.

Lemma removeFromCart_cases_witness :
  let line := sample_line 1 7 3 (Some (sample_product 7 10 (Num 8))) in
  CartContext.removeFromCart accepting (Some alice) 7 [line]
  = (Return tt, [], [Remote (DeleteCartItem "6f1c-alice" 7) None]) /\
  CartContext.removeFromCart accepting (Some alice) 9 [line]
  = (Return tt, [line], [Remote (DeleteCartItem "6f1c-alice" 9) None]).
Proof.
  intro line. split.
  - apply (removeFromCart_cases accepting alice 7 line []); reflexivity.
  - apply (removeFromCart_cases accepting alice 9 line [line]); reflexivity.
Defined.

(** ** Adding twice *)

(** C2: two adds of the same product, quantities [q1] and [q2] of at least
    1, the second one seeing the line the first one made: the first one
    inserts a line, the second one issues one update of the quantity and
    no insert, and the cart ends with a single line for the product, of
    quantity [q1 + q2]. *)
Theorem addToCart_twice_merges
        (first second : SupabaseClient) (u : User.t)
        (items : CartContext.State) (productId q1 q2 : Z)
        (productData : Product.t) (row : Row.t) :
  1 <= q1 -> 1 <= q2 ->
  lines_of productId items = [] ->
  products_single first productId = ok (Some productData) ->
  cart_items_insert first (User.id u) productId q1 = ok (Some row) ->
  Row.product_id row = productId ->
  Row.quantity row = q1 ->
  Response.error (cart_items_update second (User.id u) productId (q1 + q2)) = None ->
  let line := CartItem.of_row row productData in
  let merged := CartItem.with_quantity line (q1 + q2) in
  CartContext.addToCart first (Some u) items productId q1 items
  = (Return tt, items ++ [line],
     [Remote (SelectProduct productId) None;
      Remote (InsertCartItem (User.id u) productId q1) None]) /\
  CartContext.addToCart second (Some u) (items ++ [line]) productId q2 (items ++ [line])
  = (Return tt, items ++ [merged],
     [Remote (UpdateCartItem (User.id u) productId (q1 + q2)) None]) /\
  lines_of productId (items ++ [merged]) = [merged] /\
  CartItem.quantity merged = q1 + q2.
Proof.
  intros Hq1 Hq2 Hnone Hproduct Hinsert Hpid Hqty Hupdate line merged.
  pose proof (lines_of_nil_find productId items Hnone) as Hfind.
  assert (Hline : (Row.product_id row =? productId) = true)
    by (rewrite Hpid; apply Z.eqb_refl).
  repeat split.
  - rewrite (addToCart_new first u items productId q1 items Hfind).
    cbv zeta. rewrite Hproduct, Hinsert. reflexivity.
  - assert (Hfound : find (fun item => CartItem.product_id item =? productId)
                          (items ++ [line]) = Some line).
    { rewrite (find_skips productId items [line] Hfind). simpl.
      rewrite Hline. reflexivity. }
    rewrite (addToCart_existing second u (items ++ [line]) productId q2 line
               (items ++ [line]) Hfound).
    cbv zeta.
    replace (CartItem.quantity line + q2) with (q1 + q2)
      by (unfold line; simpl; rewrite Hqty; reflexivity).
    assert (Hge : (q1 + q2 <? 1) = false) by (apply Z.ltb_ge; lia).
    rewrite Hge, Hupdate.
    rewrite set_quantity_app.
    rewrite (set_quantity_untouched productId (q1 + q2) items Hfind).
    unfold CartContext.set_quantity at 1. simpl. rewrite Hline. reflexivity.
  - unfold lines_of. rewrite filter_app. fold (lines_of productId items).
    rewrite Hnone. simpl.
    rewrite Hline. reflexivity.
Qed.

Lemma addToCart_twice_merges_witness :
  let line := sample_line 107 7 2 (Some (sample_product 7 50 Null)) in
  let merged := sample_line 107 7 5 (Some (sample_product 7 50 Null)) in
  CartContext.addToCart accepting (Some alice) [] 7 2 []
  = (Return tt, [line],
     [Remote (SelectProduct 7) None;
      Remote (InsertCartItem "6f1c-alice" 7 2) None]) /\
  CartContext.addToCart accepting (Some alice) [line] 7 3 [line]
  = (Return tt, [merged], [Remote (UpdateCartItem "6f1c-alice" 7 5) None]) /\
  lines_of 7 [merged] = [merged] /\
  CartItem.quantity merged = 5.
Proof.
  intros line merged.
  apply (addToCart_twice_merges accepting accepting alice [] 7 2 3
           (sample_product 7 50 Null)
           {| Row.id := 107; Row.user_id := "6f1c-alice"; Row.product_id := 7;
              Row.quantity := 2; Row.created_at := "2024-01-01T00:00:00Z" |});
    try reflexivity; lia.
Defined.

(** ** The quantity of a line *)

(** C5 (evaluation at the failing input): [addToCart] of a product without
    a line and with the quantity 0, on a remote that stores what it is
    sent, resolves and leaves a line of quantity 0 in the cart. *)
Theorem addToCart_zero_quantity :
  let line := sample_line 107 7 0 (Some (sample_product 7 50 Null)) in
  CartContext.addToCart accepting (Some alice) [] 7 0 []
  = (Return tt, [line],
     [Remote (SelectProduct 7) None;
      Remote (InsertCartItem "6f1c-alice" 7 0) None]) /\
  ~ quantities_positive [line].
Proof.
  intro line. split.
  - reflexivity.
  - intro Hall. inversion Hall as [| x xs Hline _]. subst.
    simpl in Hline. lia.
Qed.

Section Quantities.

Import CartContext.

Variable supabase : SupabaseClient.
Variable user : option User.t.

Lemma updateQuantity_positive (productId quantity : Z)
      (items items' : State) (r : Result unit) (events : list Event) :
  updateQuantity supabase user productId quantity items = (r, items', events) ->
  quantities_positive items -> quantities_positive items'.
Proof.
  intros Hrun Hpos.
  destruct (Z.lt_ge_cases quantity 1) as [Hlt | Hge].
  - rewrite (updateQuantity_below_one supabase user productId quantity items Hlt)
      in Hrun.
    injection Hrun as _ <- _. exact Hpos.
  - destruct user as [u |]; [| injection Hrun as _ <- _; exact Hpos].
    rewrite (updateQuantity_run supabase u productId quantity items Hge) in Hrun.
    destruct (Response.error _); injection Hrun as _ <- _;
      [exact Hpos | apply set_quantity_positive; assumption].
Qed.

Lemma removeFromCart_positive (productId : Z)
      (items items' : State) (r : Result unit) (events : list Event) :
  removeFromCart supabase user productId items = (r, items', events) ->
  quantities_positive items -> quantities_positive items'.
Proof.
  intros Hrun Hpos.
  destruct user as [u |]; [| injection Hrun as _ <- _; exact Hpos].
  rewrite removeFromCart_run in Hrun.
  destruct (Response.error _); injection Hrun as _ <- _; [exact Hpos |].
  unfold quantities_positive in *. rewrite Forall_forall in *.
  intros item Hin. apply filter_In in Hin as [Hin _]. exact (Hpos item Hin).
Qed.

Lemma clearCart_positive
      (items items' : State) (r : Result unit) (events : list Event) :
  clearCart supabase user items = (r, items', events) ->
  quantities_positive items -> quantities_positive items'.
Proof.
  intros Hrun Hpos.
  destruct user as [u |]; [| injection Hrun as _ <- _; exact Hpos].
  rewrite clearCart_run in Hrun.
  destruct (Response.error _); injection Hrun as _ <- _;
    [exact Hpos | constructor].
Qed.

(** [addToCart] keeps the quantities at 1 or above when it is given a
    quantity of 1 or above; nothing in it looks at the quantity of a line
    it inserts. *)
Lemma addToCart_positive (snapshot : State) (productId quantity : Z)
      (items items' : State) (r : Result unit) (events : list Event) :
  1 <= quantity ->
  returns_inserted_row supabase ->
  addToCart supabase user snapshot productId quantity items = (r, items', events) ->
  quantities_positive items -> quantities_positive items'.
Proof.
  intros Hq Hecho Hrun Hpos.
  destruct user as [u |]; [| injection Hrun as _ <- _; exact Hpos].
  destruct (find (fun item => CartItem.product_id item =? productId) snapshot)
    as [existingItem |] eqn:Hfind.
  - rewrite (addToCart_existing supabase u snapshot productId quantity
               existingItem items Hfind) in Hrun.
    cbv zeta in Hrun.
    destruct (_ <? 1) eqn:Hnew; [injection Hrun as _ <- _; exact Hpos |].
    apply Z.ltb_ge in Hnew.
    destruct (Response.error _); injection Hrun as _ <- _;
      [exact Hpos | apply set_quantity_positive; assumption].
  - rewrite (addToCart_new supabase u snapshot productId quantity items Hfind)
      in Hrun.
    cbv zeta in Hrun.
    destruct (Response.error (products_single supabase productId));
      destruct (Response.data (products_single supabase productId));
      try (injection Hrun as _ <- _; exact Hpos).
    destruct (Response.error (cart_items_insert _ _ _ _));
      [injection Hrun as _ <- _; exact Hpos |].
    destruct (Response.data (cart_items_insert _ _ _ _)) as [row |] eqn:Hrow;
      injection Hrun as _ <- _; [| exact Hpos].
    apply Forall_app. split; [exact Hpos |].
    constructor; [| constructor].
    simpl. destruct (Hecho _ _ _ _ Hrow) as [_ ->]. exact Hq.
Qed.

End Quantities.

(** ** One line per product *)

Section Uniqueness.

Import CartContext.

Variable supabase : SupabaseClient.
Variable user : option User.t.
Hypothesis inserted : returns_inserted_row supabase.

Lemma transform_products (rows : list JoinedRow.t) :
  map CartItem.product_id (map transform rows) = map JoinedRow.product_id rows.
Proof. rewrite map_map. reflexivity. Qed.


End Uniqueness.




Lemma accepting_returns_inserted_row : returns_inserted_row accepting.
Proof.
  intros user_id product_id quantity row Hrow.
  injection Hrow as <-. split; reflexivity.
Defined.


(** * Further properties of the provider *)

Section Provider_runs.

Import CartContext.

Variable supabase : SupabaseClient.

(** [fetchCartItems], by the answer of the remote. *)
Lemma fetchCartItems_run (user : option User.t) (items : State) :
  fetchCartItems supabase user items
  = let r := cart_items_select supabase (option_map User.id user) in
    match Response.error r with
    | Some e =>
        (Return tt, items,
         [Remote (SelectCart (option_map User.id user)) (Some e);
          ConsoleError "Error fetching cart:" e])
    | None =>
        (Return tt,
         match Response.data r with
         | Some rows => filter has_product (map transform rows)
         | None => []
         end,
         [Remote (SelectCart (option_map User.id user)) None])
    end.
Proof.
  unfold fetchCartItems, try_catch, bind, await, throw, modify, console_error.
  cbn. destruct (Response.error _); reflexivity.
Qed.

(** X1: an operation of the provider that rejects leaves the items as
    they were. *)
Theorem perform_rejected_unchanged
        (user : option User.t) (o : Op) (items items' : State)
        (e : Error) (events : list Event) :
  perform supabase user o items = (Throw e, items', events) ->
  items' = items.
Proof.
  destruct o as [productId quantity | productId quantity | productId | |];
    cbn [perform].
  - apply addToCart_rejected_unchanged.
  - destruct (Z.lt_ge_cases quantity 1) as [Hlt | Hge].
    + rewrite (updateQuantity_below_one supabase user productId quantity items Hlt).
      discriminate.
    + destruct user as [u |]; [| discriminate].
      rewrite (updateQuantity_run supabase u productId quantity items Hge).
      destruct (Response.error _); [| discriminate].
      intro Hrun. injection Hrun as _ <- _. reflexivity.
  - destruct user as [u |]; [| discriminate].
    rewrite removeFromCart_run.
    destruct (Response.error _); [| discriminate].
    intro Hrun. injection Hrun as _ <- _. reflexivity.
  - destruct user as [u |]; [| discriminate].
    rewrite clearCart_run.
    destruct (Response.error _); [| discriminate].
    intro Hrun. injection Hrun as _ <- _. reflexivity.
  - unfold on_user_change. destruct user as [u |]; [| discriminate].
    rewrite fetchCartItems_run. cbv zeta.
    destruct (Response.error _); discriminate.
Qed.

(** X2: signed out, no operation sends a request or logs; the four
    mutations resolve and leave the cart as it is (also [clearCart]), and
    the effect on [user] empties it. *)
Theorem perform_signed_out (o : Op) (items : State) :
  perform supabase None o items
  = (Return tt, match o with UserChange => [] | _ => items end, []).
Proof. destruct o; reflexivity. Qed.

(** X3: one operation sends at most one write to the remote, and the
    effect on [user] sends none. *)
Theorem perform_at_most_one_write
        (user : option User.t) (o : Op) (items items' : State)
        (r : Result unit) (events : list Event) :
  perform supabase user o items = (r, items', events) ->
  (List.length (writes events) <= 1)%nat /\
  (o = UserChange -> writes events = []).
Proof.
  intro Hrun.
  destruct o as [productId quantity | productId quantity | productId | |];
    cbn [perform] in Hrun.
  - split; [| discriminate].
    destruct user as [u |]; [| injection Hrun as _ _ <-; cbn; lia].
    destruct (find (fun item => CartItem.product_id item =? productId) items)
      as [existingItem |] eqn:Hfind.
    + rewrite (addToCart_existing supabase u items productId quantity
                 existingItem items Hfind) in Hrun.
      cbv zeta in Hrun.
      destruct (_ <? 1); [injection Hrun as _ _ <-; cbn; lia |].
      destruct (Response.error _); injection Hrun as _ _ <-; cbn; lia.
    + rewrite (addToCart_new supabase u items productId quantity items Hfind)
        in Hrun.
      cbv zeta in Hrun.
      destruct (Response.error (products_single supabase productId));
        destruct (Response.data (products_single supabase productId));
        try (injection Hrun as _ _ <-; cbn; lia).
      destruct (Response.error (cart_items_insert _ _ _ _));
        injection Hrun as _ _ <-; cbn; lia.
  - split; [| discriminate].
    destruct (Z.lt_ge_cases quantity 1) as [Hlt | Hge].
    + rewrite (updateQuantity_below_one supabase user productId quantity items Hlt)
        in Hrun.
      injection Hrun as _ _ <-. cbn. lia.
    + destruct user as [u |]; [| injection Hrun as _ _ <-; cbn; lia].
      rewrite (updateQuantity_run supabase u productId quantity items Hge) in Hrun.
      destruct (Response.error _); injection Hrun as _ _ <-; cbn; lia.
  - split; [| discriminate].
    destruct user as [u |]; [| injection Hrun as _ _ <-; cbn; lia].
    rewrite removeFromCart_run in Hrun.
    destruct (Response.error _); injection Hrun as _ _ <-; cbn; lia.
  - split; [| discriminate].
    destruct user as [u |]; [| injection Hrun as _ _ <-; cbn; lia].
    rewrite clearCart_run in Hrun.
    destruct (Response.error _); injection Hrun as _ _ <-; cbn; lia.
  - unfold on_user_change in Hrun.
    destruct user as [u |]; [| injection Hrun as _ _ <-; cbn; split; [lia | reflexivity]].
    rewrite fetchCartItems_run in Hrun. cbv zeta in Hrun.
    destruct (Response.error _); injection Hrun as _ _ <-; cbn;
      split; try lia; reflexivity.
Qed.

Lemma loaded_rows (rows : list JoinedRow.t) :
  filter has_product (map transform rows) = map transform (rows_with_product rows).
Proof.
  unfold rows_with_product.
  induction rows as [| row rest IH]; [reflexivity |].
  cbn [map filter]. unfold has_product at 1, carries_product at 1.
  cbn [transform CartItem.product].
  destruct (JoinedRow.products row) as [| product others];
    cbn [hd_error map]; [exact IH | f_equal; exact IH].
Qed.

(** X4: [fetchCartItems] never rejects.  On an error of the remote it
    logs and keeps the items.  Otherwise the items become the returned
    rows that carry a product, in their order, each as a line with the id,
    product id and quantity of the row and its first product - so every
    line has a product and there are at most as many lines as rows - and
    the empty cart when no data came back. *)
Theorem fetchCartItems_outcome
        (user : option User.t) (items items' : State)
        (r : Result unit) (events : list Event) :
  fetchCartItems supabase user items = (r, items', events) ->
  r = Return tt /\
  match Response.error (cart_items_select supabase (option_map User.id user)) with
  | Some e => items' = items /\ In (ConsoleError "Error fetching cart:" e) events
  | None =>
      forallb has_product items' = true /\
      match Response.data (cart_items_select supabase (option_map User.id user)) with
      | Some rows =>
          items' = map transform (rows_with_product rows) /\
          map CartItem.id items' = map JoinedRow.id (rows_with_product rows) /\
          map CartItem.product_id items'
          = map JoinedRow.product_id (rows_with_product rows) /\
          map CartItem.quantity items'
          = map JoinedRow.quantity (rows_with_product rows) /\
          map CartItem.product items'
          = map (fun row => hd_error (JoinedRow.products row))
                (rows_with_product rows) /\
          (List.length items' <= List.length rows)%nat
      | None => items' = []
      end
  end.
Proof.
  rewrite fetchCartItems_run. cbv zeta.
  destruct (Response.error _) as [e |]; intro Hrun;
    injection Hrun as <- <- <-.
  - split; [reflexivity |]. split; [reflexivity |]. right. left. reflexivity.
  - split; [reflexivity |].
    destruct (Response.data _) as [rows |]; [| split; reflexivity].
    split.
    + apply forallb_forall. intros item Hin.
      apply filter_In in Hin as [_ Hp]. exact Hp.
    + split; [apply loaded_rows |].
      rewrite loaded_rows, !map_map.
      repeat split.
      unfold rows_with_product. rewrite List.length_map. apply filter_length_le.
Qed.

End Provider_runs.

Lemma perform_rejected_unchanged_witness :
  let items := [sample_line 1 9 3 (Some (sample_product 9 10 (Num 8)))] in
  perform unreachable (Some alice) (Remove 9) items
  = (Throw (RemoteError "TypeError: Failed to fetch"), items,
     [Remote (DeleteCartItem "6f1c-alice" 9)
             (Some (RemoteError "TypeError: Failed to fetch"));
      ConsoleError "Error removing from cart:"
                   (RemoteError "TypeError: Failed to fetch")]) /\
  items = items.
Proof.
  intro items. split; [reflexivity |].
  apply (perform_rejected_unchanged unreachable (Some alice) (Remove 9) items items
           (RemoteError "TypeError: Failed to fetch")
           [Remote (DeleteCartItem "6f1c-alice" 9)
                   (Some (RemoteError "TypeError: Failed to fetch"));
            ConsoleError "Error removing from cart:"
                         (RemoteError "TypeError: Failed to fetch")]).
  reflexivity.
Defined.

Lemma perform_at_most_one_write_witness :
  let events := [Remote (SelectProduct 7) None;
                 Remote (InsertCartItem "6f1c-alice" 7 2) None] in
  (List.length (writes events) <= 1)%nat /\
  (Add 7 2 = UserChange -> writes events = []).
Proof.
  intro events.
  apply (perform_at_most_one_write accepting (Some alice) (Add 7 2) []
           [sample_line 107 7 2 (Some (sample_product 7 50 Null))]
           (Return tt) events).
  reflexivity.
Defined.

Lemma fetchCartItems_outcome_witness :
  let rows :=
    [ {| JoinedRow.id := 1; JoinedRow.product_id := 7; JoinedRow.quantity := 1;
         JoinedRow.products := [sample_product 7 50 Null] |};
      {| JoinedRow.id := 2; JoinedRow.product_id := 7; JoinedRow.quantity := 2;
         JoinedRow.products := [sample_product 7 50 Null] |} ] in
  let loaded := [sample_line 1 7 1 (Some (sample_product 7 50 Null));
                 sample_line 2 7 2 (Some (sample_product 7 50 Null))] in
  Return tt = Return tt /\
  (forallb CartContext.has_product loaded = true /\
   (loaded = map CartContext.transform rows /\
    map CartItem.id loaded = map JoinedRow.id rows /\
    map CartItem.product_id loaded = map JoinedRow.product_id rows /\
    map CartItem.quantity loaded = map JoinedRow.quantity rows /\
    map CartItem.product loaded
    = map (fun row => hd_error (JoinedRow.products row)) rows /\
    (List.length loaded <= 3)%nat)).
Proof.
  intros rows loaded.
  apply (fetchCartItems_outcome stored_twice (Some alice)
           [sample_line 5 9 3 None] loaded (Return tt)
           [Remote (SelectCart (Some "6f1c-alice")) None]).
  reflexivity.
Defined.

(** ** What an operation does to the lines *)

Section Lines_after.

Import CartContext.

Lemma lines_of_set_quantity_other (productId other quantity : Z) (items : State) :
  other <> productId ->
  lines_of other (set_quantity productId quantity items) = lines_of other items.
Proof.
  intro Hneq. unfold lines_of, set_quantity.
  induction items as [| item rest IH]; [reflexivity |].
  cbn [map filter].
  destruct (CartItem.product_id item =? productId) eqn:Hp.
  - apply Z.eqb_eq in Hp. cbn [CartItem.with_quantity CartItem.product_id].
    assert (Ho : (CartItem.product_id item =? other) = false)
      by (apply Z.eqb_neq; congruence).
    rewrite Ho. exact IH.
  - destruct (CartItem.product_id item =? other); [f_equal |]; exact IH.
Qed.

Lemma lines_of_set_quantity (productId quantity : Z) (items : State) :
  Forall (fun item => CartItem.quantity item = quantity)
         (lines_of productId (set_quantity productId quantity items)).
Proof.
  unfold lines_of, set_quantity.
  induction items as [| item rest IH]; [constructor |].
  cbn [map filter].
  destruct (CartItem.product_id item =? productId) eqn:Hp.
  - cbn [CartItem.with_quantity CartItem.product_id]. rewrite Hp.
    constructor; [reflexivity | exact IH].
  - rewrite Hp. exact IH.
Qed.

Lemma lines_of_removed (productId : Z) (items : State) :
  lines_of productId
           (filter (fun item => negb (CartItem.product_id item =? productId)) items)
  = [].
Proof.
  unfold lines_of.
  induction items as [| item rest IH]; [reflexivity |].
  cbn [filter].
  destruct (CartItem.product_id item =? productId) eqn:Hp; cbn [negb filter].
  - exact IH.
  - rewrite Hp. exact IH.
Qed.

Lemma lines_of_removed_other (productId other : Z) (items : State) :
  other <> productId ->
  lines_of other
           (filter (fun item => negb (CartItem.product_id item =? productId)) items)
  = lines_of other items.
Proof.
  intro Hneq. unfold lines_of.
  induction items as [| item rest IH]; [reflexivity |].
  cbn [filter].
  destruct (CartItem.product_id item =? productId) eqn:Hp; cbn [negb filter].
  - apply Z.eqb_eq in Hp.
    assert (Ho : (CartItem.product_id item =? other) = false)
      by (apply Z.eqb_neq; congruence).
    rewrite Ho. exact IH.
  - destruct (CartItem.product_id item =? other); [f_equal |]; exact IH.
Qed.

Lemma itemCount_app (items more : State) :
  itemCount (items ++ more) = itemCount items + itemCount more.
Proof.
  induction items as [| item rest IH]; cbn [app itemCount]; [reflexivity |].
  rewrite IH. lia.
Qed.

Lemma cartCount_itemCount (items : State) : cartCount items = itemCount items.
Proof. unfold cartCount. rewrite cartCount_from. lia. Qed.

Lemma itemCount_split (productId : Z) (items : State) :
  itemCount items
  = itemCount (lines_of productId items)
    + itemCount (filter (fun item => negb (CartItem.product_id item =? productId))
                        items).
Proof.
  unfold lines_of.
  induction items as [| item rest IH]; [reflexivity |].
  cbn [filter itemCount].
  destruct (CartItem.product_id item =? productId); cbn [negb itemCount]; lia.
Qed.

Variable supabase : SupabaseClient.
Variable u : User.t.
Variable productId : Z.

(** X5: a [removeFromCart] that the remote accepts resolves; no line of
    the product is left, the lines of every other product are the same,
    and the count drops by the quantities of the lines removed. *)
Theorem removeFromCart_removes
        (items items' : State) (r : Result unit) (events : list Event) :
  Response.error (cart_items_delete supabase (User.id u) productId) = None ->
  removeFromCart supabase (Some u) productId items = (r, items', events) ->
  r = Return tt /\
  lines_of productId items' = [] /\
  (forall other, other <> productId -> lines_of other items' = lines_of other items) /\
  cartCount items' = cartCount items - cartCount (lines_of productId items).
Proof.
  intros Hok Hrun. rewrite removeFromCart_run, Hok in Hrun.
  injection Hrun as <- <- _.
  split; [reflexivity |]. split; [apply lines_of_removed |].
  split; [intros other Hneq; apply lines_of_removed_other, Hneq |].
  rewrite !cartCount_itemCount. rewrite (itemCount_split productId items). lia.
Qed.

(** X6: an [updateQuantity] to a quantity of at least 1 that the remote
    accepts resolves; the products of the lines and their order are the
    same, every line of the product carries the new quantity, the lines
    of every other product are the same, and a cart without a line of the
    product is left as it is (though the update was sent). *)
Theorem updateQuantity_sets
        (quantity : Z) (items items' : State) (r : Result unit)
        (events : list Event) :
  1 <= quantity ->
  Response.error (cart_items_update supabase (User.id u) productId quantity) = None ->
  updateQuantity supabase (Some u) productId quantity items = (r, items', events) ->
  r = Return tt /\
  map CartItem.product_id items' = map CartItem.product_id items /\
  Forall (fun item => CartItem.quantity item = quantity) (lines_of productId items') /\
  (forall other, other <> productId -> lines_of other items' = lines_of other items) /\
  (lines_of productId items = [] ->
   items' = items /\
   events = [Remote (UpdateCartItem (User.id u) productId quantity) None]).
Proof.
  intros Hq Hok Hrun.
  rewrite (updateQuantity_run supabase u productId quantity items Hq), Hok in Hrun.
  injection Hrun as <- <- <-.
  split; [reflexivity |]. split; [apply set_quantity_products |].
  split; [apply lines_of_set_quantity |].
  split; [intros other Hneq; apply lines_of_set_quantity_other, Hneq |].
  intro Hnone. split; [| reflexivity].
  apply set_quantity_untouched, lines_of_nil_find, Hnone.
Qed.

End Lines_after.

Lemma removeFromCart_removes_witness :
  let line7 := sample_line 107 7 3 (Some (sample_product 7 50 Null)) in
  let line9 := sample_line 109 9 1 (Some (sample_product 9 50 Null)) in
  Return tt = Return tt /\
  lines_of 7 [line9] = [] /\
  (forall other, other <> 7 -> lines_of other [line9] = lines_of other [line7; line9]) /\
  CartContext.cartCount [line9]
  = CartContext.cartCount [line7; line9]
    - CartContext.cartCount (lines_of 7 [line7; line9]).
Proof.
  intros line7 line9.
  apply (removeFromCart_removes accepting alice 7 [line7; line9] [line9] (Return tt)
           [Remote (DeleteCartItem "6f1c-alice" 7) None]);
    reflexivity.
Defined.

Lemma updateQuantity_sets_witness :
  let line7 := sample_line 107 7 3 (Some (sample_product 7 50 Null)) in
  let line7' := sample_line 107 7 5 (Some (sample_product 7 50 Null)) in
  let line9 := sample_line 109 9 1 (Some (sample_product 9 50 Null)) in
  let events := [Remote (UpdateCartItem "6f1c-alice" 7 5) None] in
  Return tt = Return tt /\
  map CartItem.product_id [line7'; line9] = map CartItem.product_id [line7; line9] /\
  Forall (fun item => CartItem.quantity item = 5) (lines_of 7 [line7'; line9]) /\
  (forall other, other <> 7 ->
     lines_of other [line7'; line9] = lines_of other [line7; line9]) /\
  (lines_of 7 [line7; line9] = [] ->
   [line7'; line9] = [line7; line9] /\ events = events).
Proof.
  intros line7 line7' line9 events.
  apply (updateQuantity_sets accepting alice 7 5 [line7; line9] [line7'; line9]
           (Return tt) events);
    [lia | reflexivity | reflexivity].
Defined.

(** ** How operations compose *)

Section Composition.

Import CartContext.

Lemma set_quantity_twice (productId q1 q2 : Z) (items : State) :
  set_quantity productId q2 (set_quantity productId q1 items)
  = set_quantity productId q2 items.
Proof.
  unfold set_quantity. rewrite map_map. apply map_ext.
  intro item.
  destruct (CartItem.product_id item =? productId) eqn:Hp.
  - cbn [CartItem.with_quantity CartItem.product_id]. rewrite Hp. reflexivity.
  - rewrite Hp. reflexivity.
Qed.

Variables first second : SupabaseClient.
Variable u : User.t.
Variable productId : Z.

(** X7: of two accepted [updateQuantity] calls for the same product the
    last one wins: the cart is the one the second call alone would have
    left. *)
Theorem updateQuantity_last_wins
        (q1 q2 : Z) (items items1 items2 : State)
        (r1 r2 : Result unit) (events1 events2 : list Event) :
  1 <= q1 -> 1 <= q2 ->
  Response.error (cart_items_update first (User.id u) productId q1) = None ->
  Response.error (cart_items_update second (User.id u) productId q2) = None ->
  updateQuantity first (Some u) productId q1 items = (r1, items1, events1) ->
  updateQuantity second (Some u) productId q2 items1 = (r2, items2, events2) ->
  updateQuantity second (Some u) productId q2 items = (r2, items2, events2).
Proof.
  intros Hq1 Hq2 Hok1 Hok2 Hrun1 Hrun2.
  rewrite (updateQuantity_run first u productId q1 items Hq1), Hok1 in Hrun1.
  injection Hrun1 as _ <- _.
  rewrite (updateQuantity_run second u productId q2 _ Hq2), Hok2 in Hrun2.
  rewrite (updateQuantity_run second u productId q2 items Hq2), Hok2.
  rewrite set_quantity_twice in Hrun2. exact Hrun2.
Qed.

(** X8: on a cart without a line of the product, an accepted [addToCart]
    followed by an accepted [removeFromCart] of the same product gives the
    cart back as it was. *)
Theorem addToCart_then_removeFromCart
        (quantity : Z) (items items1 items2 : State)
        (productData : Product.t) (row : Row.t)
        (r1 r2 : Result unit) (events1 events2 : list Event) :
  lines_of productId items = [] ->
  products_single first productId = ok (Some productData) ->
  cart_items_insert first (User.id u) productId quantity = ok (Some row) ->
  Row.product_id row = productId ->
  Response.error (cart_items_delete second (User.id u) productId) = None ->
  addToCart first (Some u) items productId quantity items = (r1, items1, events1) ->
  removeFromCart second (Some u) productId items1 = (r2, items2, events2) ->
  r1 = Return tt /\ r2 = Return tt /\ items2 = items.
Proof.
  intros Hnone Hproduct Hinsert Hpid Hok Hrun1 Hrun2.
  pose proof (lines_of_nil_find productId items Hnone) as Hfind.
  rewrite (addToCart_new first u items productId quantity items Hfind) in Hrun1.
  cbv zeta in Hrun1. rewrite Hproduct, Hinsert in Hrun1. cbn in Hrun1.
  injection Hrun1 as <- <- _.
  rewrite removeFromCart_run, Hok in Hrun2.
  injection Hrun2 as <- <- _.
  split; [reflexivity |]. split; [reflexivity |].
  rewrite filter_app.
  rewrite (remove_untouched productId items Hfind).
  cbn. rewrite Hpid, Z.eqb_refl. cbn. apply app_nil_r.
Qed.

End Composition.

Lemma updateQuantity_last_wins_witness :
  let line q := sample_line 107 7 q (Some (sample_product 7 50 Null)) in
  CartContext.updateQuantity accepting (Some alice) 7 4 [line 1]
  = (Return tt, [line 4], [Remote (UpdateCartItem "6f1c-alice" 7 4) None]).
Proof.
  intro line.
  apply (updateQuantity_last_wins accepting accepting alice 7 9 4
           [line 1] [line 9] [line 4] (Return tt) (Return tt)
           [Remote (UpdateCartItem "6f1c-alice" 7 9) None]
           [Remote (UpdateCartItem "6f1c-alice" 7 4) None]);
    try reflexivity; lia.
Defined.

Lemma addToCart_then_removeFromCart_witness :
  let line9 := sample_line 109 9 1 (Some (sample_product 9 50 Null)) in
  Return tt = Return tt /\ Return tt = Return tt /\ [line9] = [line9].
Proof.
  intro line9.
  apply (addToCart_then_removeFromCart accepting accepting alice 7 2
           [line9] [line9; sample_line 107 7 2 (Some (sample_product 7 50 Null))]
           [line9]
           (sample_product 7 50 Null)
           {| Row.id := 107; Row.user_id := "6f1c-alice"; Row.product_id := 7;
              Row.quantity := 2; Row.created_at := "2024-01-01T00:00:00Z" |}
           (Return tt) (Return tt)
           [Remote (SelectProduct 7) None;
            Remote (InsertCartItem "6f1c-alice" 7 2) None]
           [Remote (DeleteCartItem "6f1c-alice" 7) None]);
    reflexivity.
Defined.

(** ** The count and the quantities *)

Section Counting.

Import CartContext.

Variable supabase : SupabaseClient.
Variable user : option User.t.

(** X9: [clearCart], signed in, either resolves with the empty cart -
    count 0, total 0 - or rejects with the error of the remote and keeps
    the items. *)
Theorem clearCart_outcome
        (u : User.t) (items items' : State) (r : Result unit)
        (events : list Event) :
  clearCart supabase (Some u) items = (r, items', events) ->
  (r = Return tt /\ items' = [] /\ cartCount items' = 0 /\ total items' = 0%float) \/
  (exists e,
      Response.error (cart_items_delete_all supabase (User.id u)) = Some e /\
      r = Throw e /\ items' = items).
Proof.
  rewrite clearCart_run.
  destruct (Response.error _) as [e |]; intro Hrun; injection Hrun as <- <- _.
  - right. exists e. repeat split.
  - left. repeat split.
Qed.

Lemma fetchCartItems_positive
      (items items' : State) (r : Result unit) (events : list Event) :
  selects_positive supabase ->
  fetchCartItems supabase user items = (r, items', events) ->
  quantities_positive items -> quantities_positive items'.
Proof.
  intros Hsel Hrun Hpos.
  rewrite fetchCartItems_run in Hrun. cbv zeta in Hrun.
  destruct (Response.error _); injection Hrun as _ <- _; [exact Hpos |].
  destruct (Response.data _) as [rows |] eqn:Hrows; [| constructor].
  unfold quantities_positive. apply Forall_forall.
  intros item Hin. apply filter_In in Hin as [Hin _].
  apply in_map_iff in Hin as [row [<- Hrow]].
  pose proof (Hsel _ rows Hrows) as Hall.
  rewrite Forall_forall in Hall. exact (Hall row Hrow).
Qed.

(** X10: an operation that does not ask for a quantity below 1 keeps
    every quantity at 1 or above, against a remote that answers an insert
    with the inserted row and holds no row of quantity below 1. *)
Theorem perform_quantities_positive
        (o : Op) (items items' : State) (r : Result unit) (events : list Event) :
  asks_positive o ->
  returns_inserted_row supabase ->
  selects_positive supabase ->
  perform supabase user o items = (r, items', events) ->
  quantities_positive items -> quantities_positive items'.
Proof.
  intros Hask Hins Hsel Hrun Hpos.
  destruct o as [productId quantity | productId quantity | productId | |];
    cbn [perform] in Hrun.
  - exact (addToCart_positive supabase user items productId quantity items items'
             r events Hask Hins Hrun Hpos).
  - exact (updateQuantity_positive supabase user productId quantity items items'
             r events Hrun Hpos).
  - exact (removeFromCart_positive supabase user productId items items'
             r events Hrun Hpos).
  - exact (clearCart_positive supabase user items items' r events Hrun Hpos).
  - unfold on_user_change in Hrun.
    destruct user as [u |] eqn:Hu.
    + rewrite <- Hu in Hrun.
      exact (fetchCartItems_positive items items' r events Hsel Hrun Hpos).
    + injection Hrun as _ <- _. constructor.
Qed.

Lemma not_in_find_none (productId : Z) (items : State) :
  ~ In productId (map CartItem.product_id items) ->
  find (fun item => CartItem.product_id item =? productId) items = None.
Proof.
  induction items as [| item rest IH]; cbn [map find]; [reflexivity |].
  intro Hnotin.
  destruct (CartItem.product_id item =? productId) eqn:Hp.
  - apply Z.eqb_eq in Hp. exfalso. apply Hnotin. left. exact Hp.
  - apply IH. intro Hin. apply Hnotin. right. exact Hin.
Qed.

Lemma itemCount_set_quantity (productId quantity : Z) (items : State)
      (existingItem : CartItem.t) :
  one_line_per_product items ->
  find (fun item => CartItem.product_id item =? productId) items
  = Some existingItem ->
  itemCount (set_quantity productId quantity items)
  = itemCount items - CartItem.quantity existingItem + quantity.
Proof.
  unfold one_line_per_product.
  induction items as [| item rest IH]; cbn [map find]; [discriminate |].
  intros Hone Hfind.
  inversion Hone as [| x xs Hnotin Hrest]; subst.
  unfold set_quantity. cbn [map itemCount]. fold (set_quantity productId quantity rest).
  destruct (CartItem.product_id item =? productId) eqn:Hp.
  - injection Hfind as <-. apply Z.eqb_eq in Hp. rewrite <- Hp.
    rewrite (set_quantity_untouched (CartItem.product_id item) quantity rest
               (not_in_find_none _ rest Hnotin)).
    cbn. lia.
  - rewrite (IH Hrest Hfind). lia.
Qed.

(** X11: whenever an [addToCart], called on the current items of a cart
    with one line per product, changes the cart, the count grows by
    exactly the quantity added (the remote answering an insert with the
    inserted row). *)
Theorem addToCart_count
        (productId quantity : Z) (items items' : State)
        (r : Result unit) (events : list Event) :
  one_line_per_product items ->
  returns_inserted_row supabase ->
  addToCart supabase user items productId quantity items = (r, items', events) ->
  items' <> items ->
  cartCount items' = cartCount items + quantity.
Proof.
  intros Hone Hins Hrun Hchanged.
  destruct user as [u |]; [| injection Hrun as _ <- _; contradiction].
  destruct (find (fun item => CartItem.product_id item =? productId) items)
    as [existingItem |] eqn:Hfind.
  - rewrite (addToCart_existing supabase u items productId quantity
               existingItem items Hfind) in Hrun.
    cbv zeta in Hrun.
    destruct (_ <? 1); [injection Hrun as _ <- _; contradiction |].
    destruct (Response.error _); injection Hrun as _ <- _; [contradiction |].
    rewrite !cartCount_itemCount.
    rewrite (itemCount_set_quantity productId _ items existingItem Hone Hfind).
    lia.
  - rewrite (addToCart_new supabase u items productId quantity items Hfind) in Hrun.
    cbv zeta in Hrun.
    destruct (Response.error (products_single supabase productId));
      destruct (Response.data (products_single supabase productId));
      try (injection Hrun as _ <- _; contradiction).
    destruct (Response.error (cart_items_insert _ _ _ _));
      [injection Hrun as _ <- _; contradiction |].
    destruct (Response.data (cart_items_insert _ _ _ _)) as [row |] eqn:Hrow;
      injection Hrun as _ <- _; [| contradiction].
    rewrite !cartCount_itemCount, itemCount_app.
    destruct (Hins _ _ _ _ Hrow) as [_ Hq].
    cbn. rewrite Hq. lia.
Qed.

(** X12: in a cart whose quantities are all at least 1 the count is at
    least the number of lines; so the count is 0 exactly for the empty
    cart. *)
Theorem cartCount_lines (items : State) :
  quantities_positive items ->
  Z.of_nat (List.length items) <= cartCount items /\
  (cartCount items = 0 <-> items = []).
Proof.
  intro Hpos. rewrite cartCount_itemCount.
  assert (Hle : Z.of_nat (List.length items) <= itemCount items).
  { induction Hpos as [| item rest Hitem _ IH]; cbn [List.length itemCount]; lia. }
  split; [exact Hle |]. split.
  - destruct items as [| item rest]; [reflexivity |].
    cbn [List.length] in Hle. lia.
  - intros ->. reflexivity.
Qed.

End Counting.

Lemma clearCart_outcome_witness :
  let items := [sample_line 107 7 3 (Some (sample_product 7 50 Null))] in
  (Return tt = Return tt /\ @nil CartItem.t = [] /\
   CartContext.cartCount [] = 0 /\ CartContext.total [] = 0%float) \/
  (exists e,
      Response.error (cart_items_delete_all accepting (User.id alice)) = Some e /\
      Return tt = Throw e /\ [] = items).
Proof.
  intro items.
  apply (clearCart_outcome accepting alice items [] (Return tt)
           [Remote (DeleteCart "6f1c-alice") None]).
  reflexivity.
Defined.

Lemma accepting_selects_positive : selects_positive accepting.
Proof.
  intros user_id rows Hrows. injection Hrows as <-. constructor.
Defined.

Lemma sample_cart_positive :
  quantities_positive [sample_line 107 7 3 (Some (sample_product 7 50 Null))].
Proof.
  constructor; [cbn; lia | constructor].
Defined.

Lemma perform_quantities_positive_witness :
  quantities_positive [sample_line 107 7 5 (Some (sample_product 7 50 Null))].
Proof.
  apply (perform_quantities_positive accepting (Some alice) (Add 7 2)
           [sample_line 107 7 3 (Some (sample_product 7 50 Null))]
           [sample_line 107 7 5 (Some (sample_product 7 50 Null))]
           (Return tt) [Remote (UpdateCartItem "6f1c-alice" 7 5) None]).
  - cbn. lia.
  - exact accepting_returns_inserted_row.
  - exact accepting_selects_positive.
  - reflexivity.
  - exact sample_cart_positive.
Defined.

Lemma addToCart_count_witness :
  let before := [sample_line 107 7 3 (Some (sample_product 7 50 Null))] in
  let after := [sample_line 107 7 5 (Some (sample_product 7 50 Null))] in
  CartContext.cartCount after = CartContext.cartCount before + 2.
Proof.
  intros before after.
  apply (addToCart_count accepting (Some alice) 7 2 before after (Return tt)
           [Remote (UpdateCartItem "6f1c-alice" 7 5) None]).
  - constructor; [intros [] | constructor].
  - exact accepting_returns_inserted_row.
  - reflexivity.
  - discriminate.
Defined.

Lemma cartCount_lines_witness :
  let items := [sample_line 107 7 3 (Some (sample_product 7 50 Null))] in
  Z.of_nat (List.length items) <= CartContext.cartCount items /\
  (CartContext.cartCount items = 0 <-> items = []).
Proof.
  intro items. apply (cartCount_lines items). exact sample_cart_positive.
Defined.

(** * Further properties of the pricing *)

Section Pricing_more.

Import CartContext.

Lemma total_from_filter (items : State) (sum : number) :
  fold_left total_step (filter has_product items) sum
  = fold_left total_step items sum.
Proof.
  revert sum.
  induction items as [| item rest IH]; intro sum; [reflexivity |].
  cbn [filter fold_left]. unfold has_product at 1.
  destruct (CartItem.product item) as [product |] eqn:Hp.
  - cbn [fold_left]. apply IH.
  - rewrite (total_step_orphan sum item Hp). apply IH.
Qed.

(** X13: lines without a product snapshot count for nothing in the total
    of the provider: the total is the total of the lines that have
    one. *)
Theorem total_ignores_orphans (items : State) :
  total items = total (filter has_product items).
Proof. unfold total. symmetry. apply total_from_filter. Qed.

Lemma subtotal_thrown (items : list CartItem.t) (e : Error) :
  fold_left Cart.subtotal_step items (Throw e) = Throw e.
Proof. induction items as [| item rest IH]; [reflexivity | exact IH]. Qed.

Lemma subtotal_from (items : list CartItem.t) (sum : number) :
  if forallb has_product items
  then exists subtotal, fold_left Cart.subtotal_step items (Return sum) = Return subtotal
  else fold_left Cart.subtotal_step items (Return sum)
       = Throw (TypeError "Cannot read properties of null").
Proof.
  revert sum.
  induction items as [| item rest IH]; intro sum.
  - exists sum. reflexivity.
  - cbn [forallb fold_left].
    assert (Hstep :
              if has_product item
              then exists next, Cart.subtotal_step (Return sum) item = Return next
              else Cart.subtotal_step (Return sum) item
                   = Throw (TypeError "Cannot read properties of null")).
    { unfold has_product, Cart.subtotal_step, Cart.getItemPrice.
      destruct (CartItem.product item) as [product |]; [| reflexivity].
      destruct (Product.discount_price product) as [| | d];
        try destruct (truthy d); eexists; reflexivity. }
    destruct (has_product item); cbn [andb].
    + destruct Hstep as [next ->]. apply IH.
    + rewrite Hstep. apply subtotal_thrown.
Qed.

(** X14: the summary of the cart page has a value exactly when every line
    has its product: then the tax is 15 percent of the subtotal and the
    total their sum; with one line without product all three throw the
    TypeError of the property read. *)
Theorem summary_defined (cartItems : list CartItem.t) :
  if forallb has_product cartItems
  then exists subtotal,
      Cart.calculateSubtotal cartItems = Return subtotal /\
      CartSummary.calculateTax cartItems = Return (subtotal * 0.15)%float /\
      CartSummary.calculateTotal cartItems
      = Return (subtotal + subtotal * 0.15)%float
  else Cart.calculateSubtotal cartItems
       = Throw (TypeError "Cannot read properties of null") /\
       CartSummary.calculateTax cartItems
       = Throw (TypeError "Cannot read properties of null") /\
       CartSummary.calculateTotal cartItems
       = Throw (TypeError "Cannot read properties of null").
Proof.
  assert (H : if forallb has_product cartItems
              then exists subtotal, Cart.calculateSubtotal cartItems = Return subtotal
              else Cart.calculateSubtotal cartItems
                   = Throw (TypeError "Cannot read properties of null"))
    by apply subtotal_from.
  unfold CartSummary.calculateTotal, CartSummary.calculateTax.
  destruct (forallb has_product cartItems).
  - destruct H as [subtotal H]. exists subtotal. rewrite H. repeat split.
  - rewrite H. repeat split.
Qed.

Lemma order_items_from (order_id : Z) (items : State) :
  forallb agreeable items = true ->
  exists rows,
    Checkout.orderItems order_id items = Return rows /\
    map Checkout.product_id rows = map CartItem.product_id items /\
    map Checkout.quantity rows = map CartItem.quantity items /\
    forall sum,
      fold_left (fun sum row =>
                   (sum + Checkout.price row * of_Z (Checkout.quantity row))%float)
                rows sum
      = fold_left total_step items sum.
Proof.
  induction items as [| item rest IH]; intro Hall.
  - exists []. repeat split.
  - cbn [forallb] in Hall. apply andb_true_iff in Hall as [Ha Hrest].
    destruct (IH Hrest) as [rows [Hrows [Hpid [Hqty Hsum]]]].
    unfold agreeable in Ha.
    destruct (CartItem.product item) as [product |] eqn:Hp; [| discriminate].
    pose proof (getItemPrice_priced item product Hp Ha) as Hprice.
    cbn [Checkout.orderItems]. unfold Checkout.order_item.
    rewrite Hprice, Hrows.
    eexists. split; [reflexivity |].
    cbn [map Checkout.product_id Checkout.quantity].
    rewrite Hpid, Hqty. split; [reflexivity |]. split; [reflexivity |].
    intro sum. cbn [fold_left Checkout.price Checkout.quantity].
    rewrite (total_step_priced sum item product Hp). unfold lineTotal.
    apply Hsum.
Qed.

(** X15: for a cart whose lines all have a product with no falsy numeric
    discount price, checkout builds one order row per line, with the
    product and quantity of the line, and the rows add up to the
    [total] of the provider that is stored as [total_amount]. *)
Theorem orderItems_amount (order_id : Z) (items : State) :
  forallb agreeable items = true ->
  exists rows,
    Checkout.orderItems order_id items = Return rows /\
    map Checkout.product_id rows = map CartItem.product_id items /\
    map Checkout.quantity rows = map CartItem.quantity items /\
    Checkout.items_amount rows = total items.
Proof.
  intro Hall.
  destruct (order_items_from order_id items Hall)
    as [rows [Hrows [Hpid [Hqty Hsum]]]].
  exists rows. repeat split; try assumption.
  apply Hsum.
Qed.

End Pricing_more.

Lemma orderItems_amount_witness :
  let items := [sample_line 1 7 3 (Some (sample_product 7 10 (Num 8)))] in
  exists rows,
    Checkout.orderItems 42 items = Return rows /\
    map Checkout.product_id rows = map CartItem.product_id items /\
    map Checkout.quantity rows = map CartItem.quantity items /\
    Checkout.items_amount rows = CartContext.total items.
Proof.
  intro items. apply (orderItems_amount 42 items). reflexivity.
Defined.

(** * The cart page *)

(** X16: [updateQuantity] of the cart page, for a quantity of at least 1,
    never rejects and always ends with [processing] off.  On an error of
    the remote the lines are kept and the error message is set; otherwise
    the message is left alone and the line of that id - only that one -
    gets the quantity. *)
Theorem page_updateQuantity_outcome
        (supabase : SupabaseClient) (itemId newQuantity : Z)
        (page page' : Cart.State) (r : Result unit) (events : list Event) :
  1 <= newQuantity ->
  Cart.updateQuantity supabase itemId newQuantity page = (r, page', events) ->
  r = Return tt /\
  Cart.processing page' = false /\
  Cart.loading page' = Cart.loading page /\
  match Response.error (cart_items_update_by_id supabase itemId newQuantity) with
  | Some e =>
      Cart.cartItems page' = Cart.cartItems page /\
      Cart.error page' = Some "Failed to update cart. Please try again." /\
      In (ConsoleError "Error updating cart:" e) events
  | None =>
      Cart.error page' = Cart.error page /\
      map CartItem.id (Cart.cartItems page') = map CartItem.id (Cart.cartItems page) /\
      forall item, In item (Cart.cartItems page') ->
                   CartItem.id item = itemId -> CartItem.quantity item = newQuantity
  end.
Proof.
  intros Hq. unfold Cart.updateQuantity.
  apply Z.ltb_ge in Hq. rewrite Hq.
  unfold try_finally, try_catch, bind, await, throw, console_error,
    Cart.setProcessing, Cart.setCartItems, Cart.setError, modify.
  cbn.
  destruct (Response.error _) as [e |]; cbn; intro Hrun;
    injection Hrun as <- <- <-; cbn.
  - repeat split. right. left. reflexivity.
  - repeat split.
    + rewrite map_map. apply map_ext. intro item.
      destruct (CartItem.id item =? itemId); reflexivity.
    + intros item Hin Hid.
      apply in_map_iff in Hin as [old [Hitem _]].
      destruct (CartItem.id old =? itemId) eqn:Hold; subst item.
      * reflexivity.
      * apply Z.eqb_neq in Hold. contradiction.
Qed.

Lemma page_updateQuantity_outcome_witness :
  let page := {| Cart.cartItems := [sample_line 1 7 3 None]; Cart.loading := false;
                 Cart.error := None; Cart.processing := false |} in
  let page' := {| Cart.cartItems := [sample_line 1 7 3 None]; Cart.loading := false;
                  Cart.error := Some "Failed to update cart. Please try again.";
                  Cart.processing := false |} in
  let e := RemoteError "TypeError: Failed to fetch" in
  let events := [Remote (UpdateCartItemById 1 4) (Some e);
                 ConsoleError "Error updating cart:" e] in
  Return tt = Return tt /\
  Cart.processing page' = false /\
  Cart.loading page' = Cart.loading page /\
  (Cart.cartItems page' = Cart.cartItems page /\
   Cart.error page' = Some "Failed to update cart. Please try again." /\
   In (ConsoleError "Error updating cart:" e) events).
Proof.
  intros page page' e events.
  apply (page_updateQuantity_outcome unreachable 1 4 page page' (Return tt) events).
  - lia.
  - reflexivity.
Defined.

(** * The quantity selector of the product detail page *)

(** X17: [handleQuantityChange] keeps the selected quantity at 1 or above
    whatever value it is given, and, once the product is loaded, at or
    below its stock (or at 1 where the stock is lower). *)
Theorem handleQuantityChange_bounds
        (product : option Product.t) (value quantity : Z) :
  1 <= quantity ->
  1 <= ProductDetail.handleQuantityChange product value quantity /\
  forall p, product = Some p ->
            quantity <= Z.max 1 (Product.stock_quantity p) ->
            ProductDetail.handleQuantityChange product value quantity
            <= Z.max 1 (Product.stock_quantity p).
Proof.
  intro Hq. unfold ProductDetail.handleQuantityChange.
  destruct (value <? 1) eqn:Hlow.
  - split; [exact Hq | intros p _ Hle; exact Hle].
  - apply Z.ltb_ge in Hlow.
    destruct product as [p0 |].
    + rewrite Z.gtb_ltb.
      destruct (Product.stock_quantity p0 <? value) eqn:Hhigh.
      * split; [exact Hq | intros p _ Hle; exact Hle].
      * apply Z.ltb_ge in Hhigh.
        split; [exact Hlow |]. intros p Hp _. injection Hp as <-. lia.
    + split; [exact Hlow | discriminate].
Qed.

Lemma handleQuantityChange_bounds_witness :
  let p := sample_product 7 50 Null in
  1 <= ProductDetail.handleQuantityChange (Some p) 11 10 /\
  forall p', Some p = Some p' ->
             10 <= Z.max 1 (Product.stock_quantity p') ->
             ProductDetail.handleQuantityChange (Some p) 11 10
             <= Z.max 1 (Product.stock_quantity p').
Proof.
  intro p. apply (handleQuantityChange_bounds (Some p) 11 10). lia.
Defined.

(** * Image URLs *)

Section Images.

Import ImageUtils.

Lemma prefix_app (a b : string) : String.prefix a (a ++ b) = true.
Proof.
  induction a as [| c a IH]; [destruct b; reflexivity |].
  cbn. destruct (Ascii.ascii_dec c c) as [_ | Hneq]; [exact IH | contradiction].
Qed.

Lemma prefix_self (a : string) : String.prefix a a = true.
Proof.
  induction a as [| c a IH]; [reflexivity |].
  cbn. destruct (Ascii.ascii_dec c c) as [_ | Hneq]; [exact IH | contradiction].
Qed.

Lemma blank_app (a b : string) : blank a = false -> blank (a ++ b) = false.
Proof. destruct a; [discriminate | reflexivity]. Qed.

Lemma includes_app_r (a b p : string) :
  includes b p = true -> includes (a ++ b) p = true.
Proof.
  intro Hb. induction a as [| c a IH]; [exact Hb |].
  cbn [append includes]. rewrite IH. apply orb_true_r.
Qed.

(** X18: [getSafeImageUrl] never returns the empty string, whatever the
    fallback; a URL that is not empty is kept as the beginning of the
    result, and a [data:] URL is returned as it is.  So the [src] of
    [getImageProps] is never empty. *)
Theorem getSafeImageUrl_safe (url alt : string) (fallbackUrl : option string) :
  blank (getSafeImageUrl url fallbackUrl) = false /\
  (blank url = false ->
   String.prefix url (getSafeImageUrl url fallbackUrl) = true) /\
  (blank url = false -> startsWith url "data:" = true ->
   getSafeImageUrl url fallbackUrl = url) /\
  blank (src (getImageProps url alt)) = false.
Proof.
  assert (Hsafe : forall fb, blank (getSafeImageUrl url fb) = false).
  { intro fb. unfold getSafeImageUrl.
    destruct (blank url) eqn:Hb.
    - destruct fb as [f |]; [| reflexivity].
      destruct (blank f) eqn:Hf; [reflexivity | exact Hf].
    - destruct (startsWith url "data:"); [exact Hb |].
      destruct (includes url "images.unsplash.com" && negb (includes url "&w="));
        [apply blank_app, Hb | exact Hb]. }
  split; [apply Hsafe |]. split; [| split; [| apply Hsafe]].
  - intro Hb. unfold getSafeImageUrl. rewrite Hb.
    destruct (startsWith url "data:"); [apply prefix_self |].
    destruct (includes url "images.unsplash.com" && negb (includes url "&w="));
      [apply prefix_app | apply prefix_self].
  - intros Hb Hdata. unfold getSafeImageUrl. rewrite Hb, Hdata. reflexivity.
Qed.

(** X19: on a URL that has a query string already (it contains a question
    mark), applying [getSafeImageUrl] a second time changes nothing. *)
Theorem getSafeImageUrl_twice (url : string) :
  includes url "?" = true ->
  getSafeImageUrl (getSafeImageUrl url None) None = getSafeImageUrl url None.
Proof.
  intro Hquery.
  destruct (blank url) eqn:Hb.
  { destruct url; [discriminate Hquery | discriminate Hb]. }
  assert (Hsame : forall r,
             blank r = false ->
             (startsWith r "data:" = false ->
              includes r "images.unsplash.com" && negb (includes r "&w=") = false) ->
             getSafeImageUrl r None = r).
  { intros r Hr Hcond. unfold getSafeImageUrl. rewrite Hr.
    destruct (startsWith r "data:"); [reflexivity |].
    rewrite (Hcond eq_refl). reflexivity. }
  unfold getSafeImageUrl at 2 3. rewrite Hb, Hquery.
  destruct (startsWith url "data:") eqn:Hdata.
  - apply Hsame; [exact Hb | intro H; rewrite Hdata in H; discriminate].
  - destruct (includes url "images.unsplash.com" && negb (includes url "&w="))
      eqn:Hunsplash.
    + apply Hsame; [apply blank_app, Hb |].
      intros _.
      rewrite (includes_app_r url ("&" ++ "w=400&h=400&fit=crop&q=80") "&w=" eq_refl).
      apply andb_false_r.
    + apply Hsame; [exact Hb | intros _; exact Hunsplash].
Qed.

End Images.

Lemma getSafeImageUrl_safe_witness :
  let url := "https://images.unsplash.com/photo-1" in
  ImageUtils.blank (ImageUtils.getSafeImageUrl url None) = false /\
  (ImageUtils.blank url = false ->
   String.prefix url (ImageUtils.getSafeImageUrl url None) = true) /\
  (ImageUtils.blank url = false -> ImageUtils.startsWith url "data:" = true ->
   ImageUtils.getSafeImageUrl url None = url) /\
  ImageUtils.blank (ImageUtils.src (ImageUtils.getImageProps url "photo")) = false.
Proof.
  intro url. exact (getSafeImageUrl_safe url "photo" None).
Defined.

Lemma getSafeImageUrl_twice_witness :
  let url := "https://images.unsplash.com/photo-1?ixid=abc" in
  ImageUtils.getSafeImageUrl url None
  = "https://images.unsplash.com/photo-1?ixid=abc&w=400&h=400&fit=crop&q=80" /\
  ImageUtils.getSafeImageUrl (ImageUtils.getSafeImageUrl url None) None
  = ImageUtils.getSafeImageUrl url None.
Proof.
  intro url. split; [reflexivity |].
  apply (getSafeImageUrl_twice url). reflexivity.
Defined.

(** Without a query string the second application appends the
    parameters once more: the first one added [?w=], not [&w=]. *)
Example getSafeImageUrl_appends_again :
  ImageUtils.getSafeImageUrl
    (ImageUtils.getSafeImageUrl "https://images.unsplash.com/photo-1" None) None
  = "https://images.unsplash.com/photo-1?w=400&h=400&fit=crop&q=80&w=400&h=400&fit=crop&q=80".
Proof. reflexivity. Qed.

(** * A product that cannot be read *)

(** X20: when the product of an [addToCart] has no line yet and its row
    cannot be read - the select fails or returns nothing - the call
    rejects with [Product not found] (the error of the remote, if any, is
    only logged with the request), sends no write and leaves the items as
    they are. *)
Theorem addToCart_product_not_found
        (supabase : SupabaseClient) (u : User.t)
        (snapshot items : CartContext.State) (productId quantity : Z) :
  lines_of productId snapshot = [] ->
  Response.error (products_single supabase productId) <> None \/
  Response.data (products_single supabase productId) = None ->
  CartContext.addToCart supabase (Some u) snapshot productId quantity items
  = (Throw (JsError "Product not found"), items,
     [Remote (SelectProduct productId)
             (Response.error (products_single supabase productId));
      ConsoleError "Error adding to cart:" (JsError "Product not found")]).
Proof.
  intros Hnone Hmissing.
  rewrite (addToCart_new supabase u snapshot productId quantity items
             (lines_of_nil_find productId snapshot Hnone)).
  cbv zeta.
  destruct (Response.error (products_single supabase productId)) as [e |];
    destruct (Response.data (products_single supabase productId)) as [pd |];
    try reflexivity.
  destruct Hmissing as [Herr | Hdata]; [contradiction | discriminate].
Qed.

Lemma addToCart_product_not_found_witness :
  CartContext.addToCart without_products (Some alice) [] 7 1 []
  = (Throw (JsError "Product not found"), [],
     [Remote (SelectProduct 7)
             (Some (RemoteError "JSON object requested, multiple (or no) rows returned"));
      ConsoleError "Error adding to cart:" (JsError "Product not found")]).
Proof.
  apply (addToCart_product_not_found without_products alice [] [] 7 1).
  - reflexivity.
  - left. discriminate.
Defined.
